(** * pelita/universe.py: layout parsing, the [Mesh] container and the
    [Universe] constructor, embedded in Rocq.

    Python values are modelled as follows.
    - [int] is [Z] (unbounded); [range n] is [seqZ 0 n], empty for [n <= 0].
    - A Python 2 [str] is a [list ascii] when the code walks over its
      characters (layout texts, grid rows) and a [string] when it is used as
      an opaque key or compared as a whole (move names, bot ids).  A
      one-character string [c] taken out of a text is [chr1 c].
    - [str(i)] on an [int] is stdpp's decimal printer [pretty].
    - A [dict] is a [gmap]; a [list] is a [list], indexed the way Python
      does it ([py_getitem], [py_setitem]: negative indices count from the
      end, anything else out of range raises [IndexError]).
    - Exceptions are the left summand of [result]; mutation of an argument
      (the layout grid) is modelled by returning the updated object. *)

From stdpp Require Import base list gmap strings pretty numbers sorting.
From Stdlib Require Import ZArith Lia Ascii.

Local Open Scope Z_scope.

(** ** Exceptions and the error monad *)

Inductive LayoutEncodingException :=
  | IllegalChar (c : ascii)
  | SpecifiedTwice (c : ascii)
  | MissingIds (number_bots : Z) (missing : list string)
  | NotRectangular (i len_i len_0 : Z).

Inductive exn :=
  | LayoutError (e : LayoutEncodingException)
  | IndexError
  | ValueError.

Definition result (A : Type) : Type := exn + A.

Definition ret {A} (a : A) : result A := inr a.
Definition raise {A} (e : exn) : result A := inl e.
Definition bind {A B} (m : result A) (k : A -> result B) : result B :=
  match m with
  | inl e => inl e
  | inr a => k a
  end.

Declare Scope py_scope.
Delimit Scope py_scope with py.
Notation "x <~ m ;; k" := (bind m (fun x => k))
  (at level 100, m at next level, right associativity) : py_scope.
Local Open Scope py_scope.

(** [for x in xs: s = body(s, x)] with exceptions leaving the loop. *)
Fixpoint for_each {S X} (body : S -> X -> result S) (xs : list X) (s : S)
  : result S :=
  match xs with
  | [] => ret s
  | x :: xs' => s' <~ body s x ;; for_each body xs' s'
  end.

(** ** Python lists *)

Definition range (n : Z) : list Z := seqZ 0 n.

Definition len {A} (l : list A) : Z := Z.of_nat (List.length l).

(** [l[i]] *)
Definition py_getitem {A} (l : list A) (i : Z) : result A :=
  let j := if decide (i < 0) then i + len l else i in
  if decide (0 <= j < len l) then
    match l !! Z.to_nat j with
    | Some x => ret x
    | None => raise IndexError
    end
  else raise IndexError.

(** [l[i] = x] *)
Definition py_setitem {A} (l : list A) (i : Z) (x : A) : result (list A) :=
  let j := if decide (i < 0) then i + len l else i in
  if decide (0 <= j < len l) then ret (<[Z.to_nat j := x]> l)
  else raise IndexError.

(** [l[start:stop]]: both bounds are taken from the end when negative and
    then clamped to the list. *)
Definition py_slice_bound (n i : Z) : Z :=
  let j := if decide (i < 0) then i + n else i in
  if decide (j < 0) then 0 else if decide (n <= j) then n else j.

Definition py_slice {A} (l : list A) (start stop : Z) : list A :=
  let a := py_slice_bound (len l) start in
  let b := py_slice_bound (len l) stop in
  take (Z.to_nat (b - a)) (drop (Z.to_nat a) l).

(** ** Module constants *)

Definition wall : ascii := "#".
Definition food : ascii := ".".
Definition harvester : ascii := "c".
Definition destroyer : ascii := "o".
Definition free : ascii := " ".
Definition newline : ascii := "010".

Definition chr1 (c : ascii) : string := String c EmptyString.

Definition layout_chars : list string :=
  [chr1 wall; chr1 food; chr1 harvester; chr1 destroyer; chr1 free].

Definition north : string := "NORTH".
Definition south : string := "SOUTH".
Definition west : string := "WEST".
Definition east : string := "EAST".
Definition stop : string := "STOP".

Definition move_ids : list string := [north; south; east; west; stop].

(** ** new_positions *)

Definition new_positions (current : Z * Z) : gmap string (Z * Z) :=
  <[stop := (current.1, current.2)]>
  (<[east := (current.1, current.2 + 1)]>
  (<[west := (current.1, current.2 - 1)]>
  (<[south := (current.1 + 1, current.2)]>
  (<[north := (current.1 - 1, current.2)]> ∅)))).

(** ** Mesh *)

Module Mesh.
Section Mesh.
(** The elements are arbitrary objects; [None] is Python's [None]. *)
Context {A : Type}.

Record t := mk {
  height : Z;
  width : Z;
  shape : Z * Z;
  _data : list (option A)
}.

Definition __init__ (height width : Z) : t :=
  {| height := height;
     width := width;
     shape := (height, width);
     _data := (fun _ => None) <$> range (width * height) |}.

Definition _check_index (self : t) (index : Z * Z) : result unit :=
  if decide (index.1 >= height self \/ index.1 < 0) then raise IndexError
  else if decide (index.2 >= width self \/ index.2 < 0) then raise IndexError
  else ret tt.

Definition __getitem__ (self : t) (index : Z * Z) : result (option A) :=
  _ <~ _check_index self index ;;
  py_getitem (_data self) (index.1 * width self + index.2).

(** The assignment mutates [self]; the updated object is returned. *)
Definition __setitem__ (self : t) (index : Z * Z) (item : option A)
  : result t :=
  _ <~ _check_index self index ;;
  d <~ py_setitem (_data self) (index.1 * width self + index.2) item ;;
  ret {| height := height self; width := width self;
         shape := shape self; _data := d |}.

Definition __len__ (self : t) : Z := height self * width self.

(** The items the iterator yields, in order. *)
Definition __iter__ (self : t) : list (option A) := _data self.

(** [str_of_list] is Python's [str] on a list of items. *)
Definition __str__ (str_of_list : list (option A) -> list ascii) (self : t)
  : list ascii :=
  foldl (fun output i =>
           let start := i * width self in
           let end_ := start + width self in
           (output ++ str_of_list (py_slice (_data self) start end_))
             ++ ["010"%char])
        [] (range (height self)).

(** The meshes a program can hold: built by the constructor with the
    given height and width and then updated by item assignments. *)
Inductive constructed (h w : Z) : t -> Prop :=
  | constructed_init : constructed h w (__init__ h w)
  | constructed_set m index item m' :
      constructed h w m ->
      __setitem__ m index item = inr m' ->
      constructed h w m'.

Definition in_bounds (h w : Z) (index : Z * Z) : Prop :=
  0 <= index.1 < h /\ 0 <= index.2 < w.
End Mesh.
Arguments t : clear implicits.
End Mesh.

(** The mesh of the class docstring, one row taller: [Mesh(2, 3)]. *)
Definition docstring_mesh : Mesh.t bool := Mesh.__init__ 2 3.

(** ** Python strings *)

(** [str(i)] and [int(s)].  [int] is only ever applied to the bot ids the
    module prints itself, so only unsigned digit strings are covered; every
    other argument is reported as [ValueError]. *)
Definition str (i : Z) : string := pretty i.

Definition digit_value (c : ascii) : option Z :=
  let n := Z.of_N (N_of_ascii c) in
  if decide (48 <= n <= 57) then Some (n - 48) else None.

Fixpoint int_digits (s : string) (acc : Z) : option Z :=
  match s with
  | EmptyString => Some acc
  | String c s' =>
      match digit_value c with
      | Some d => int_digits s' (10 * acc + d)
      | None => None
      end
  end.

Definition int (s : string) : result Z :=
  match s with
  | EmptyString => raise ValueError
  | _ => match int_digits s 0 with
         | Some v => ret v
         | None => raise ValueError
         end
  end.

(** [s.split(sep)] for a one-character separator: never the empty list. *)
Fixpoint split (sep : ascii) (s : list ascii) : list (list ascii) :=
  match s with
  | [] => [[]]
  | c :: s' =>
      if decide (c = sep) then [] :: split sep s'
      else match split sep s' with
           | [] => [[c]]
           | l :: ls => (c :: l) :: ls
           end
  end.

(** [sep.join(ls)] *)
Fixpoint join (sep : list ascii) (ls : list (list ascii)) : list ascii :=
  match ls with
  | [] => []
  | l :: ls' =>
      match ls' with
      | [] => l
      | _ => l ++ sep ++ join sep ls'
      end
  end.

(** [s.find(c)]: the first index of [c], or -1. *)
Fixpoint find_from (sep : ascii) (s : list ascii) (i : Z) : Z :=
  match s with
  | [] => -1
  | c :: s' => if decide (c = sep) then i else find_from sep s' (i + 1)
  end.

Definition find (sep : ascii) (s : list ascii) : Z := find_from sep s 0.

(** Whitespace of a Python 2 byte string: space, \t, \n, \v, \f, \r. *)
Definition isspace (c : ascii) : bool :=
  bool_decide (c ∈ [" "; "009"; "010"; "011"; "012"; "013"]%char).

Fixpoint lstrip (s : list ascii) : list ascii :=
  match s with
  | [] => []
  | c :: s' => if isspace c then lstrip s' else s
  end.

Definition rstrip (s : list ascii) : list ascii := reverse (lstrip (reverse s)).

Definition strip (s : list ascii) : list ascii := rstrip (lstrip s).

(** [l.sort()] on a list of strings. *)
Definition str_le (a b : string) : Prop := String.leb a b = true.

#[global] Instance str_le_dec a b : Decision (str_le a b) :=
  decide (String.leb a b = true).

Definition sort_strings (l : list string) : list string := merge_sort str_le l.

(** ** Layout functions *)

Definition bot_ids_of (number_bots : Z) : list string :=
  str <$> range number_bots.

(** Body of the character loop of [check_layout]; the state is
    [existing_bots]. *)
Definition check_char (legal bot_ids : list string)
    (existing_bots : list string) (c : ascii) : result (list string) :=
  if decide (chr1 c ∉ legal) then raise (LayoutError (IllegalChar c))
  else if decide (chr1 c ∈ bot_ids) then
    if decide (chr1 c ∈ existing_bots)
    then raise (LayoutError (SpecifiedTwice c))
    else ret (existing_bots ++ [chr1 c])
  else ret existing_bots.

(** Body of the line loop of [check_layout]. *)
Definition check_line (lines : list (list ascii)) (_ : unit) (i : Z)
  : result unit :=
  li <~ py_getitem lines i ;;
  l0 <~ py_getitem lines 0 ;;
  if decide (len li ≠ len l0)
  then raise (LayoutError (NotRectangular i (len li) (len l0)))
  else ret tt.

Definition check_layout (layout_str : list ascii) (number_bots : Z)
  : result unit :=
  let bot_ids := bot_ids_of number_bots in
  let legal := layout_chars ++ bot_ids ++ [chr1 newline] in
  existing_bots <~ for_each (check_char legal bot_ids) layout_str [] ;;
  _ <~ (if decide (bot_ids ≠ existing_bots) then
          (* the sorted members of set(bot_ids) - set(existing_bots) *)
          let missing :=
            sort_strings (filter (fun b => b ∉ existing_bots) bot_ids) in
          raise (LayoutError (MissingIds number_bots missing))
        else ret tt) ;;
  let lines := split newline layout_str in
  for_each (check_line lines) (range (len lines)) tt.

Definition strip_layout (layout_str : list ascii) : list ascii :=
  join [newline] (strip <$> split newline layout_str).

Definition layout_shape (layout_str : list ascii) : Z * Z :=
  (len (split newline layout_str), find newline layout_str).

Definition convert_to_grid (layout_str : list ascii) : list (list ascii) :=
  strip <$> split newline layout_str.

(** [((h,w) for h in range(height) for w in range(width))] *)
Definition coords (height width : Z) : list (Z * Z) :=
  range height ≫= fun h => (fun w => (h, w)) <$> range width.

(** [g[h][w]] and [g[h][w] = x] on a list of lists whose rows are distinct
    objects. *)
Definition grid_get {A} (g : list (list A)) (h w : Z) : result A :=
  row <~ py_getitem g h ;; py_getitem row w.

Definition grid_set {A} (g : list (list A)) (h w : Z) (x : A)
  : result (list (list A)) :=
  row <~ py_getitem g h ;;
  row' <~ py_setitem row w x ;;
  py_setitem g h row'.

Definition initial_positions_body (bot_ids : list string)
    (st : list (list ascii) * list (Z * Z)) (hw : Z * Z)
  : result (list (list ascii) * list (Z * Z)) :=
  let '(layout_grid, start) := st in
  let '(h, w) := hw in
  c <~ grid_get layout_grid h w ;;
  if decide (chr1 c ∈ bot_ids) then
    i <~ int (chr1 c) ;;
    start' <~ py_setitem start i (h, w) ;;
    layout_grid' <~ grid_set layout_grid h w " "%char ;;
    ret (layout_grid', start')
  else ret (layout_grid, start).

(** Returns the mutated [layout_grid] together with [start]. *)
Definition initial_positions (layout_grid : list (list ascii))
    (shape : Z * Z) (number_bots : Z)
  : result (list (list ascii) * list (Z * Z)) :=
  let bot_ids := bot_ids_of number_bots in
  let start := replicate (Z.to_nat number_bots) (0, 0) in
  let '(height, width) := (shape.1, shape.2) in
  for_each (initial_positions_body bot_ids) (coords height width)
           (layout_grid, start).

Definition extract_food_body
    (st : list (list ascii) * list (list bool)) (hw : Z * Z)
  : result (list (list ascii) * list (list bool)) :=
  let '(layout_grid, food_grid) := st in
  let '(h, w) := hw in
  c <~ grid_get layout_grid h w ;;
  if decide (chr1 c = chr1 food) then
    food_grid' <~ grid_set food_grid h w true ;;
    layout_grid' <~ grid_set layout_grid h w " "%char ;;
    ret (layout_grid', food_grid')
  else ret (layout_grid, food_grid).

(** Returns the mutated [layout_grid] together with [food_grid]. *)
Definition extract_food (layout_grid : list (list ascii)) (shape : Z * Z)
  : result (list (list ascii) * list (list bool)) :=
  let '(height, width) := (shape.1, shape.2) in
  let food_grid :=
    (fun _ => (fun _ => false) <$> range width) <$> range height in
  for_each extract_food_body (coords height width) (layout_grid, food_grid).

(** ** Universe *)

Module Universe.
Record t := mk {
  initial_layout : list ascii;
  number_bots : Z;
  width : Z;
  height : Z;
  shape : Z * Z;
  layout : list (list ascii);
  initial_pos : list (Z * Z);
  bot_positions : list (Z * Z);
  food_positions : list (list bool)
}.

Definition __init__ (layout_str : list ascii) (number_bots : Z) : result t :=
  let initial_layout := strip_layout layout_str in
  _ <~ check_layout initial_layout number_bots ;;
  let '(width, height) := layout_shape initial_layout in
  let shape := (width, height) in
  let layout := convert_to_grid initial_layout in
  r <~ initial_positions layout shape number_bots ;;
  let '(layout, initial_pos) := r in
  let bot_positions := initial_pos in
  r <~ extract_food layout shape ;;
  let '(layout, food_positions) := r in
  ret {| initial_layout := initial_layout;
         number_bots := number_bots;
         width := width;
         height := height;
         shape := shape;
         layout := layout;
         initial_pos := initial_pos;
         bot_positions := bot_positions;
         food_positions := food_positions |}.
End Universe.

(** The text of a string literal. *)
Definition text (s : string) : list ascii := String.list_ascii_of_string s.

(** The layout of the scenario in section 8 of the specification, taken
    from the repository's tests. *)
Definition scenario_layout : list ascii :=
  text "##################
#0#.  .  # .     #
#2#####    ####1 #
#     . #  .  #3##
##################".

(** ** Auxiliary notions for the proofs *)

Ltac py_simpl := cbn [bind raise ret for_each].

(** The members of [bot_ids] among the characters of the text, in reading
    order: what [existing_bots] holds when the character loop ends. *)
Definition markers_of (bot_ids : list string) (s : list ascii) : list string :=
  filter (fun b => b ∈ bot_ids) (chr1 <$> s).

Definition chars_accepted (legal bot_ids existing_bots : list string)
    (s : list ascii) : Prop :=
  Forall (fun c => chr1 c ∈ legal) s /\
  (forall b, b ∈ markers_of bot_ids s -> b ∉ existing_bots) /\
  NoDup (markers_of bot_ids s).

Definition rows_equal (lines : list (list ascii)) : Prop :=
  forall l0 row, head lines = Some l0 -> row ∈ lines ->
    List.length row = List.length l0.

(** What [check_layout] accepts. *)
Definition layout_accepted (layout_str : list ascii) (number_bots : Z) : Prop :=
  let bot_ids := bot_ids_of number_bots in
  Forall (fun c => chr1 c ∈ layout_chars ++ bot_ids ++ [chr1 newline])
         layout_str /\
  markers_of bot_ids layout_str = bot_ids /\
  rows_equal (split newline layout_str).

(** ** The layout-error conditions *)

Definition raises_layout_error {A} (m : result A) : Prop :=
  exists e, m = inl (LayoutError e).

(** [c] is the marker of one of the bots [0 .. number_bots - 1]. *)
Definition is_marker (number_bots : Z) (c : ascii) : Prop :=
  exists i, 0 <= i < number_bots /\ chr1 c = str i.

(** How often the marker of bot [i] occurs in the text. *)
Definition marker_count (layout_str : list ascii) (i : Z) : nat :=
  List.length (filter (fun c => chr1 c = str i) layout_str).

Definition marker_missing (layout_str : list ascii) (number_bots : Z) : Prop :=
  exists i, 0 <= i < number_bots /\ marker_count layout_str i = 0%nat.

Definition marker_duplicated (layout_str : list ascii) (number_bots : Z)
  : Prop :=
  exists i, 0 <= i < number_bots /\ (2 <= marker_count layout_str i)%nat.

Definition not_rectangular (layout_str : list ascii) : Prop :=
  exists l0 row,
    head (split newline layout_str) = Some l0 /\
    row ∈ split newline layout_str /\
    List.length row <> List.length l0.

(** A character outside the alphabet the specification lists: wall, food,
    free, newline and the bot markers. *)
Definition unrecognized_char_spec (layout_str : list ascii) (number_bots : Z)
  : Prop :=
  exists c, c ∈ layout_str /\
    c <> wall /\ c <> food /\ c <> free /\ c <> newline /\
    ~ is_marker number_bots c.

(** The four conditions of the specification. *)
Definition layout_error_spec (layout_str : list ascii) (number_bots : Z)
  : Prop :=
  unrecognized_char_spec layout_str number_bots \/
  marker_missing layout_str number_bots \/
  marker_duplicated layout_str number_bots \/
  not_rectangular layout_str.

(** A character outside the alphabet of the code: [layout_chars], newline
    and the bot markers. *)
Definition illegal_char (layout_str : list ascii) (number_bots : Z) : Prop :=
  exists c, c ∈ layout_str /\
    c <> wall /\ c <> food /\ c <> harvester /\ c <> destroyer /\
    c <> free /\ c <> newline /\
    ~ is_marker number_bots c.

Definition layout_error_cond (layout_str : list ascii) (number_bots : Z)
  : Prop :=
  illegal_char layout_str number_bots \/
  marker_missing layout_str number_bots \/
  marker_duplicated layout_str number_bots \/
  not_rectangular layout_str.

(** Reading the text from its start, the bot markers come in the order of
    their ids. *)
Definition markers_ascending (layout_str : list ascii) (number_bots : Z)
  : Prop :=
  forall (p q : nat) (cp cq : ascii) (i j : Z),
    (p < q)%nat ->
    layout_str !! p = Some cp -> layout_str !! q = Some cq ->
    0 <= i < number_bots -> 0 <= j < number_bots ->
    chr1 cp = str i -> chr1 cq = str j ->
    i < j.

(** The id whose marker [c] is, if any. *)
Definition marker_id (number_bots : Z) (c : ascii) : option Z :=
  match digit_value c with
  | Some d => if decide (d < number_bots) then Some d else None
  | None => None
  end.

(** ** Grids and the extraction loops *)

(** A grid of [H] rows, each of [W] cells. *)
Definition rect {A} (H W : Z) (g : list (list A)) : Prop :=
  len g = H /\ Forall (fun row => len row = W) g.

(** What becomes of a cell when the bot markers, resp. the food, are
    extracted. *)
Definition clear_marker (bot_ids : list string) (c : ascii) : ascii :=
  if decide (chr1 c ∈ bot_ids) then " "%char else c.

Definition clear_food (c : ascii) : ascii :=
  if decide (chr1 c = chr1 food) then " "%char else c.

(** Loop invariant of [initial_positions] on the grid [g0]: the cells
    visited so far have lost their marker, and whenever a visited cell
    held the marker of bot [i], [start[i]] is a cell of [g0] holding it. *)
Definition initial_positions_inv (g0 : list (list ascii)) (H W N : Z)
    (done : list (Z * Z)) (st : list (list ascii) * list (Z * Z)) : Prop :=
  rect H W st.1 /\
  len st.2 = Z.max 0 N /\
  (forall h w c, 0 <= h < H -> 0 <= w < W -> grid_get g0 h w = inr c ->
     grid_get st.1 h w =
       inr (if decide ((h, w) ∈ done) then clear_marker (bot_ids_of N) c
            else c)) /\
  (forall i h w c, 0 <= i < N -> (h, w) ∈ done ->
     0 <= h < H -> 0 <= w < W ->
     grid_get g0 h w = inr c -> chr1 c = str i ->
     exists h' w' c',
       st.2 !! Z.to_nat i = Some (h', w') /\
       0 <= h' < H /\ 0 <= w' < W /\
       grid_get g0 h' w' = inr c' /\ chr1 c' = str i).

(** Loop invariant of [extract_food] on the grid [g1]. *)
Definition extract_food_inv (g1 : list (list ascii)) (H W : Z)
    (done : list (Z * Z)) (st : list (list ascii) * list (list bool)) : Prop :=
  rect H W st.1 /\
  rect H W st.2 /\
  (forall h w c, 0 <= h < H -> 0 <= w < W -> grid_get g1 h w = inr c ->
     grid_get st.1 h w =
       inr (if decide ((h, w) ∈ done) then clear_food c else c) /\
     grid_get st.2 h w =
       inr (if decide ((h, w) ∈ done) then bool_decide (c = food)
            else false)).

(** ** Concrete layouts *)

(** A single row holding two bots in id order. *)
Definition two_bot_row : list ascii := text "#0 1#".

(** A row with a character outside the alphabet. *)
Definition row_with_x : list ascii := text "#0x#".

(** A harvester character next to the only bot. *)
Definition row_with_harvester : list ascii := text "0c".

(** Two rows of three columns, one bot. *)
Definition two_by_three : list ascii := text "#0#
###".

(** A single row: wall, bot, food, bot, wall. *)
Definition single_row : list ascii := text "#0.1#".

(** Two rows holding two bots, a harvester character and a food cell. *)
Definition harvester_grid : list ascii := text "#0c
#1.".

(** ** What an exception of check_layout says about the text *)




(** Second loop invariant of [initial_positions]: a bot none of whose
    markers has been visited still has the default position. *)
Definition initial_positions_default_inv (g0 : list (list ascii)) (H W N : Z)
    (done : list (Z * Z)) (st : list (list ascii) * list (Z * Z)) : Prop :=
  forall i, 0 <= i < N ->
    (forall h w c, (h, w) ∈ done -> 0 <= h < H -> 0 <= w < W ->
       grid_get g0 h w = inr c -> chr1 c <> str i) ->
    st.2 !! Z.to_nat i = Some (0, 0).

(** ** pelita/viewer.py: DumpingViewer *)

Module DumpingViewer.
Section DumpingViewer.
(** [json.dumps] is library code and is taken as a parameter. *)
Context {Message : Type} (json_dumps : Message -> list ascii).

(** The stream is modelled by the strings written to it so far. *)
Record t := mk { stream : list (list ascii) }.

Definition __init__ (stream : list (list ascii)) : t := mk stream.

Definition _send (self : t) (message : Message) : t :=
  let as_json := json_dumps message in
  mk ((stream self ++ [as_json]) ++ [["004"%char]]).

(** What a reader of the stream sees. *)
Definition written (self : t) : list ascii := mjoin (stream self).
End DumpingViewer.
End DumpingViewer.

(** [json.dumps] on a Python [bool]. *)
Definition json_dumps_bool (b : bool) : list ascii :=
  if b then text "true" else text "false".

(* ================================================================= *)
(** * Theorems *)

(** ** new_positions *)

(** C4: for every position [p], [new_positions p] is a mapping with exactly
    five entries; STOP maps to [p] itself and north, south, west, east map
    to the neighbours with first coordinate minus one, first coordinate plus
    one, second coordinate minus one and second coordinate plus one. *)
Theorem new_positions_five_entries (p : Z * Z) :
  size (new_positions p) = 5%nat /\
  new_positions p !! stop = Some p /\
  new_positions p !! north = Some (p.1 - 1, p.2) /\
  new_positions p !! south = Some (p.1 + 1, p.2) /\
  new_positions p !! west = Some (p.1, p.2 - 1) /\
  new_positions p !! east = Some (p.1, p.2 + 1).
Proof.
  destruct p as [r c]. unfold new_positions. cbn [fst snd].
  split.
  - rewrite !map_size_insert_None, map_size_empty; [done | ..];
      by simplify_map_eq.
  - repeat split; by simplify_map_eq.
Qed.

(** ** Python list indexing *)

Section py_lists.
Context {A : Type}.
Implicit Types (l : list A) (i : Z) (x : A).

Lemma len_nonneg l : 0 <= len l.
Proof. unfold len. lia. Qed.

Lemma py_getitem_nonneg l i :
  0 <= i ->
  py_getitem l i =
    match l !! Z.to_nat i with Some x => inr x | None => inl IndexError end.
Proof.
  intros Hi. unfold py_getitem, len.
  destruct (decide (i < 0)) as [|_]; [lia|].
  destruct (decide (0 <= i < _)) as [|Hn]; [done|].
  rewrite lookup_ge_None_2; [done | lia].
Qed.

Lemma py_getitem_lookup l i x :
  0 <= i -> l !! Z.to_nat i = Some x -> py_getitem l i = inr x.
Proof. intros Hi Hx. by rewrite py_getitem_nonneg, Hx. Qed.

Lemma py_setitem_nonneg l i x :
  0 <= i < len l -> py_setitem l i x = inr (<[Z.to_nat i := x]> l).
Proof.
  intros Hi. unfold py_setitem.
  destruct (decide (i < 0)) as [|_]; [lia|].
  by destruct (decide (0 <= i < len l)).
Qed.

Lemma py_setitem_length l i x l' :
  py_setitem l i x = inr l' -> len l' = len l.
Proof.
  unfold py_setitem. intros H.
  destruct (decide (0 <= _ < len l)); [|done].
  injection H as <-. unfold len. by rewrite length_insert.
Qed.
End py_lists.

(** ** Mesh *)

Section Mesh_facts.
Context {A : Type}.
Implicit Types (m : Mesh.t A) (index : Z * Z) (item : option A).

Lemma Mesh_check_index_ok m index :
  Mesh._check_index m index = inr tt <->
  Mesh.in_bounds (Mesh.height m) (Mesh.width m) index.
Proof.
  unfold Mesh._check_index, Mesh.in_bounds, raise, ret.
  repeat case_decide; split; intros; try done; try lia; exfalso; lia.
Qed.

Lemma Mesh_check_index_raises m index :
  Mesh._check_index m index = inl IndexError <->
  ~ Mesh.in_bounds (Mesh.height m) (Mesh.width m) index.
Proof.
  unfold Mesh._check_index, Mesh.in_bounds, raise, ret.
  repeat case_decide; split; intros; try done; try lia; exfalso; lia.
Qed.

Lemma Mesh_setitem_fields m index item m' :
  Mesh.__setitem__ m index item = inr m' ->
  Mesh.height m' = Mesh.height m /\ Mesh.width m' = Mesh.width m /\
  Mesh.shape m' = Mesh.shape m /\ len (Mesh._data m') = len (Mesh._data m).
Proof.
  unfold Mesh.__setitem__, bind. intros H.
  destruct (Mesh._check_index m index); [done|].
  destruct (py_setitem _ _ _) as [|d] eqn:Hd; [done|].
  injection H as <-. cbn. by rewrite (py_setitem_length _ _ _ _ Hd).
Qed.

(** The class invariant: the attributes are those given to the
    constructor and [_data] holds one slot per cell. *)
Lemma Mesh_constructed_inv h w m :
  Mesh.constructed h w m ->
  Mesh.height m = h /\ Mesh.width m = w /\ Mesh.shape m = (h, w) /\
  len (Mesh._data m) = Z.max 0 (w * h).
Proof.
  induction 1 as [|m index item m' _ (IH1 & IH2 & IH3 & IH4) Hset].
  - cbn. repeat split. unfold len, range.
    rewrite length_fmap, length_seqZ. lia.
  - apply Mesh_setitem_fields in Hset as (-> & -> & -> & ->). done.
Qed.

Lemma Mesh_offset_in_range h w r c :
  0 <= r < h -> 0 <= c < w -> 0 <= r * w + c < Z.max 0 (w * h).
Proof. intros. nia. Qed.

Lemma Mesh_offset_inj w r c r' c' :
  0 <= c < w -> 0 <= c' < w -> r * w + c = r' * w + c' -> r = r' /\ c = c'.
Proof.
  intros Hc Hc' Heq.
  assert (r = r') as ->; [|lia].
  destruct (Z.lt_trichotomy r r') as [Hlt|[Heq'|Hgt]]; [|done|].
  - assert (w * 1 <= w * (r' - r)) by (apply Z.mul_le_mono_nonneg_l; lia).
    lia.
  - assert (w * 1 <= w * (r - r')) by (apply Z.mul_le_mono_nonneg_l; lia).
    lia.
Qed.
End Mesh_facts.

(** C9: for a Mesh constructed with height [h] and width [w] and an integer
    index pair [(r, c)], [__getitem__] and [__setitem__] raise [IndexError]
    exactly when [r < 0], [r >= h], [c < 0] or [c >= w]; for an in-bounds
    index both succeed and access the element stored at the row-major flat
    offset [r * w + c] of [_data]. *)
Theorem Mesh_checked_access {A} (h w : Z) (m : Mesh.t A) (r c : Z)
    (item : option A) :
  Mesh.constructed h w m ->
  (Mesh.__getitem__ m (r, c) = inl IndexError <->
     r < 0 \/ r >= h \/ c < 0 \/ c >= w) /\
  (Mesh.__setitem__ m (r, c) item = inl IndexError <->
     r < 0 \/ r >= h \/ c < 0 \/ c >= w) /\
  (0 <= r < h -> 0 <= c < w ->
     exists x,
       Mesh._data m !! Z.to_nat (r * w + c) = Some x /\
       Mesh.__getitem__ m (r, c) = inr x /\
       Mesh.__setitem__ m (r, c) item =
         inr (Mesh.mk h w (h, w)
                (<[Z.to_nat (r * w + c) := item]> (Mesh._data m)))).
Proof.
  intros Hm. destruct (Mesh_constructed_inv _ _ _ Hm) as (Hh & Hw & Hs & Hlen).
  assert (Hin : 0 <= r < h -> 0 <= c < w ->
    exists x,
       Mesh._data m !! Z.to_nat (r * w + c) = Some x /\
       Mesh.__getitem__ m (r, c) = inr x /\
       Mesh.__setitem__ m (r, c) item =
         inr (Mesh.mk h w (h, w)
                (<[Z.to_nat (r * w + c) := item]> (Mesh._data m)))).
  { intros Hr Hc.
    pose proof (Mesh_offset_in_range h w r c Hr Hc) as Hoff.
    destruct (lookup_lt_is_Some_2 (Mesh._data m) (Z.to_nat (r * w + c)))
      as [x Hx]; [unfold len in Hlen; lia|].
    exists x. split; [done|].
    unfold Mesh.__getitem__, Mesh.__setitem__, bind.
    assert (Mesh._check_index m (r, c) = inr tt) as ->.
    { apply Mesh_check_index_ok. rewrite Hh, Hw. by split. }
    cbn [fst snd]. rewrite Hh, Hw, Hs. split.
    - by apply py_getitem_lookup; [lia|].
    - rewrite py_setitem_nonneg by lia. done. }
  assert (Hout : r < 0 \/ r >= h \/ c < 0 \/ c >= w ->
    Mesh._check_index m (r, c) = inl IndexError).
  { intros Ho. apply Mesh_check_index_raises. rewrite Hh, Hw.
    unfold Mesh.in_bounds. cbn. lia. }
  split; [|split; [|done]].
  - split.
    + intros Hg.
      destruct (decide (0 <= r < h /\ 0 <= c < w)) as [[Hr Hc]|]; [|lia].
      destruct (Hin Hr Hc) as (x & _ & Hx & _). congruence.
    + intros Ho. unfold Mesh.__getitem__, bind. by rewrite (Hout Ho).
  - split.
    + intros Hg.
      destruct (decide (0 <= r < h /\ 0 <= c < w)) as [[Hr Hc]|]; [|lia].
      destruct (Hin Hr Hc) as (x & _ & _ & Hx). congruence.
    + intros Ho. unfold Mesh.__setitem__, bind. by rewrite (Hout Ho).
Qed.

Lemma Mesh_checked_access_witness :
  (Mesh.__getitem__ docstring_mesh (1, 2) = inl IndexError <->
     1 < 0 \/ 1 >= 2 \/ 2 < 0 \/ 2 >= 3) /\
  (Mesh.__setitem__ docstring_mesh (1, 2) (Some true) = inl IndexError <->
     1 < 0 \/ 1 >= 2 \/ 2 < 0 \/ 2 >= 3) /\
  (0 <= 1 < 2 -> 0 <= 2 < 3 ->
     exists x,
       Mesh._data docstring_mesh !! Z.to_nat (1 * 3 + 2) = Some x /\
       Mesh.__getitem__ docstring_mesh (1, 2) = inr x /\
       Mesh.__setitem__ docstring_mesh (1, 2) (Some true) =
         inr (Mesh.mk 2 3 (2, 3)
                (<[Z.to_nat (1 * 3 + 2) := Some true]>
                   (Mesh._data docstring_mesh)))).
Proof.
  apply (Mesh_checked_access 2 3 docstring_mesh 1 2 (Some true)).
  apply Mesh.constructed_init.
Defined.

(** C10: for a Mesh [m] and an in-bounds index [i], the assignment
    [m[i] = v] succeeds; afterwards reading [m[i]] returns [v], reading any
    other in-bounds index [j] returns what that cell held before, and the
    height, width and shape attributes are unchanged. *)
Theorem Mesh_setitem_frame {A} (h w : Z) (m : Mesh.t A) (i : Z * Z)
    (v : option A) :
  Mesh.constructed h w m ->
  Mesh.in_bounds h w i ->
  exists m',
    Mesh.__setitem__ m i v = inr m' /\
    Mesh.__getitem__ m' i = inr v /\
    (forall j, Mesh.in_bounds h w j -> j <> i ->
       Mesh.__getitem__ m' j = Mesh.__getitem__ m j) /\
    Mesh.height m' = Mesh.height m /\
    Mesh.width m' = Mesh.width m /\
    Mesh.shape m' = Mesh.shape m.
Proof.
  intros Hm [Hr Hc]. destruct i as [r c]. cbn [fst snd] in Hr, Hc.
  destruct (Mesh_constructed_inv _ _ _ Hm) as (Hh & Hw & Hs & Hlen).
  pose proof (Mesh_offset_in_range h w r c Hr Hc) as Hoff.
  assert (Hck : forall (m0 : Mesh.t A) j, Mesh.height m0 = h ->
            Mesh.width m0 = w -> Mesh.in_bounds h w j ->
            Mesh._check_index m0 j = inr tt).
  { intros m0 j E1 E2 Hj. apply Mesh_check_index_ok. by rewrite E1, E2. }
  eexists. split.
  { unfold Mesh.__setitem__, bind. rewrite Hck by done. cbn [fst snd].
    rewrite Hw, py_setitem_nonneg by lia. reflexivity. }
  split; [|split; [|done]].
  - unfold Mesh.__getitem__, bind. rewrite Hck by done. cbn.
    apply py_getitem_lookup; [lia|].
    apply list_lookup_insert_eq. unfold len in Hlen. lia.
  - intros [r' c'] Hj Hne. pose proof Hj as [Hr' Hc']. cbn in Hr', Hc'.
    pose proof (Mesh_offset_in_range h w r' c' Hr' Hc') as Hoff'.
    unfold Mesh.__getitem__, bind. rewrite !Hck by done. cbn.
    rewrite Hw, !py_getitem_nonneg by lia.
    rewrite list_lookup_insert_ne; [done|].
    intros Heq. apply Hne.
    destruct (Mesh_offset_inj w r c r' c') as [-> ->]; [lia..|done].
Qed.

Lemma Mesh_setitem_frame_witness :
  exists m',
    Mesh.__setitem__ docstring_mesh (1, 2) (Some true) = inr m' /\
    Mesh.__getitem__ m' (1, 2) = inr (Some true) /\
    (forall j, Mesh.in_bounds 2 3 j -> j <> (1, 2) ->
       Mesh.__getitem__ m' j = Mesh.__getitem__ docstring_mesh j) /\
    Mesh.height m' = Mesh.height docstring_mesh /\
    Mesh.width m' = Mesh.width docstring_mesh /\
    Mesh.shape m' = Mesh.shape docstring_mesh.
Proof.
  apply (Mesh_setitem_frame 2 3 docstring_mesh (1, 2) (Some true)).
  - apply Mesh.constructed_init.
  - unfold Mesh.in_bounds. cbn. lia.
Defined.

(** ** Decimal printing and parsing of bot ids *)

Lemma pretty_N_go_length (x : N) (s : string) :
  (String.length s <= String.length (pretty_N_go x s))%nat.
Proof.
  revert s. induction (N.lt_wf_0 x) as [x _ IH]. intros s.
  destruct (decide (x = 0)%N) as [->|Hx].
  - by rewrite pretty_N_go_0.
  - rewrite pretty_N_go_step by lia.
    etrans; [|apply IH; apply N.div_lt; lia]. cbn. lia.
Qed.

Lemma str_two_digits (i : Z) :
  10 <= i -> (2 <= String.length (str i))%nat.
Proof.
  intros Hi. destruct i as [|p|p]; [lia| |lia].
  unfold str, pretty, pretty_Z, pretty, pretty_positive, pretty, pretty_N.
  destruct (decide (N.pos p = 0)%N) as [|_]; [done|].
  rewrite pretty_N_go_step by lia.
  rewrite pretty_N_go_step.
  - etrans; [|apply pretty_N_go_length]. cbn. lia.
  - apply N.div_str_pos. lia.
Qed.

Lemma digit_value_Some (c : ascii) (i : Z) :
  digit_value c = Some i <->
  0 <= i < 10 /\ c = ascii_of_N (Z.to_N (48 + i)).
Proof.
  unfold digit_value. split.
  - destruct (decide _) as [Hc|]; [|done]. intros [= <-]. split; [lia|].
    replace (48 + _) with (Z.of_N (N_of_ascii c)) by lia.
    by rewrite N2Z.id, ascii_N_embedding.
  - intros [Hi ->]. rewrite N_ascii_embedding by lia.
    rewrite Z2N.id by lia. destruct (decide _); [f_equal|]; lia.
Qed.

Lemma str_digit (i : Z) :
  0 <= i < 10 -> str i = chr1 (ascii_of_N (Z.to_N (48 + i))).
Proof.
  intros Hi.
  assert (i = 0 \/ i = 1 \/ i = 2 \/ i = 3 \/ i = 4 \/ i = 5 \/ i = 6 \/
          i = 7 \/ i = 8 \/ i = 9) as Hcases by lia.
  repeat destruct Hcases as [->|Hcases]; try subst i; reflexivity.
Qed.

(** A one-character string is the id of bot [i] exactly when the character
    is the digit [i]. *)
Lemma str_chr1 (i : Z) (c : ascii) :
  0 <= i -> (str i = chr1 c <-> digit_value c = Some i).
Proof.
  intros Hi. rewrite digit_value_Some. split.
  - intros Hs. destruct (decide (i < 10)) as [Hlt|Hge].
    + split; [lia|]. rewrite str_digit in Hs by lia. by injection Hs as <-.
    + pose proof (str_two_digits i ltac:(lia)) as Hlen.
      rewrite Hs in Hlen. cbn in Hlen. lia.
  - intros [Hlt ->]. by apply str_digit.
Qed.

Lemma int_chr1 (c : ascii) (i : Z) :
  digit_value c = Some i -> int (chr1 c) = inr i.
Proof.
  intros Hd. unfold int, chr1. cbn. rewrite Hd. cbn.
  by replace (0 + i) with i by lia.
Qed.

Lemma str_inj (i j : Z) : str i = str j -> i = j.
Proof. apply (inj pretty). Qed.

Lemma elem_of_bot_ids (N : Z) (b : string) :
  b ∈ bot_ids_of N <-> exists i, 0 <= i < N /\ b = str i.
Proof.
  unfold bot_ids_of, range. rewrite list_elem_of_fmap.
  setoid_rewrite elem_of_seqZ. split.
  - intros (i & -> & Hi). exists i. split; [lia|done].
  - intros (i & Hi & ->). exists i. split; [done|lia].
Qed.

Lemma NoDup_bot_ids (N : Z) : NoDup (bot_ids_of N).
Proof.
  unfold bot_ids_of, range. apply NoDup_fmap_2; [|apply NoDup_seqZ].
  intros i j. apply str_inj.
Qed.

Lemma chr1_inj (a b : ascii) : chr1 a = chr1 b -> a = b.
Proof. by intros [= ->]. Qed.

(** ** The loops of check_layout *)

Lemma split_nonempty (sep : ascii) (s : list ascii) :
  exists l0 rest, split sep s = l0 :: rest.
Proof.
  induction s as [|c s (l0 & rest & IH)]; cbn; [by eauto|].
  destruct (decide (c = sep)); [by eauto|]. rewrite IH. eauto.
Qed.

Lemma check_chars_spec (legal bot_ids : list string) (s : list ascii) :
  forall existing_bots,
  match for_each (check_char legal bot_ids) s existing_bots with
  | inr E =>
      chars_accepted legal bot_ids existing_bots s /\
      E = existing_bots ++ markers_of bot_ids s
  | inl e =>
      (exists le, e = LayoutError le) /\
      ~ chars_accepted legal bot_ids existing_bots s
  end.
Proof.
  unfold chars_accepted, markers_of.
  induction s as [|c s IH]; intros E0.
  { cbn. rewrite app_nil_r.
    repeat split; [constructor|set_solver|constructor]. }
  rewrite fmap_cons. py_simpl. unfold check_char at 1.
  destruct (decide (chr1 c ∉ legal)) as [Hill|Hleg]; py_simpl.
  { split; [by eauto|]. intros (Hall & _). by inversion Hall. }
  apply dec_stable in Hleg.
  destruct (decide (chr1 c ∈ bot_ids)) as [Hbot|Hnobot]; py_simpl.
  - rewrite filter_cons_True by done.
    destruct (decide (chr1 c ∈ E0)) as [Hex|Hnew]; py_simpl.
    { split; [by eauto|]. intros (_ & Hfresh & _).
      apply (Hfresh (chr1 c)); [left|done]. }
    specialize (IH (E0 ++ [chr1 c])).
    destruct (for_each _ s _) as [e|E].
    + destruct IH as [He Hn]. split; [done|].
      intros (Hall & Hfresh & Hnd). apply Hn.
      inversion Hall; subst. apply NoDup_cons in Hnd as [Hc Hnd].
      repeat split; [done| |done].
      intros b Hb [Hb'| ->%list_elem_of_singleton]%elem_of_app; [|done].
      apply (Hfresh b); [by right|done].
    + destruct IH as [(Hall & Hfresh & Hnd) ->].
      rewrite <-app_assoc. split; [|done].
      repeat split.
      * by constructor.
      * intros b [->|Hb]%elem_of_cons; [done|].
        intros Hb'. apply (Hfresh b Hb). apply elem_of_app. by left.
      * apply NoDup_cons. split; [|done].
        intros Hc. apply (Hfresh _ Hc). apply elem_of_app. right. by left.
  - rewrite filter_cons_False by done.
    specialize (IH E0). destruct (for_each _ s _) as [e|E].
    + destruct IH as [He Hn]. split; [done|].
      intros (Hall & Hfresh & Hnd). apply Hn. by inversion Hall; subst.
    + destruct IH as [(Hall & Hfresh & Hnd) ->]. split; [|done].
      repeat split; [by constructor|done..].
Qed.

Lemma check_lines_spec (lines : list (list ascii)) (l0 : list ascii) :
  head lines = Some l0 ->
  forall is_, Forall (fun i => 0 <= i < len lines) is_ ->
  match for_each (check_line lines) is_ tt with
  | inr _ =>
      forall i row, i ∈ is_ -> lines !! Z.to_nat i = Some row ->
        List.length row = List.length l0
  | inl e =>
      (exists le, e = LayoutError le) /\
      exists i row, i ∈ is_ /\ lines !! Z.to_nat i = Some row /\
        List.length row <> List.length l0
  end.
Proof.
  intros Hhead. induction 1 as [|i is_ Hi His IH]; cbn.
  { intros i row Hi. by apply elem_of_nil in Hi. }
  unfold check_line at 1.
  destruct (lookup_lt_is_Some_2 lines (Z.to_nat i)) as [row Hrow];
    [unfold len in Hi; lia|].
  rewrite (py_getitem_lookup lines i row) by (done || lia). cbn.
  rewrite (py_getitem_lookup lines 0 l0)
    by (lia || by destruct lines; simplify_eq/=).
  cbn. destruct (decide (len row ≠ len l0)) as [Hne|Heq]; cbn.
  { split; [by eauto|]. exists i, row. split; [left|].
    split; [done|]. unfold len in Hne. lia. }
  apply dec_stable in Heq.
  destruct (for_each _ is_ tt) as [e|[]].
  - destruct IH as [He (j & r & Hj & Hr & Hne)]. split; [done|].
    exists j, r. split; [by right|done].
  - intros j r [->|Hj]%elem_of_cons Hr.
    + unfold len in Heq. simplify_eq. lia.
    + by apply (IH j r).
Qed.

Lemma check_all_lines_spec (lines : list (list ascii)) :
  lines <> [] ->
  match for_each (check_line lines) (range (len lines)) tt with
  | inr _ => rows_equal lines
  | inl e => (exists le, e = LayoutError le) /\ ~ rows_equal lines
  end.
Proof.
  intros Hne. destruct lines as [|l0 rest] eqn:E; [done|]. rewrite <-E.
  assert (head lines = Some l0) as Hhead by by subst.
  pose proof (check_lines_spec lines l0 Hhead (range (len lines))) as Hspec.
  destruct (for_each _ _ tt) as [e|[]].
  - destruct Hspec as [He (i & row & Hi & Hrow & Hlen)].
    { apply Forall_seqZ. lia. }
    split; [done|]. intros Hrect. apply Hlen, Hrect; [done|].
    by eapply list_elem_of_lookup_2.
  - intros l0' row Hl0' [k Hk]%list_elem_of_lookup_1.
    assert (l0' = l0) as -> by congruence.
    apply (Hspec ltac:(apply Forall_seqZ; lia) (Z.of_nat k)).
    + apply elem_of_seqZ. apply lookup_lt_Some in Hk. unfold len. lia.
    + by rewrite Nat2Z.id.
Qed.

Lemma check_layout_spec (layout_str : list ascii) (number_bots : Z) :
  match check_layout layout_str number_bots with
  | inr _ => layout_accepted layout_str number_bots
  | inl e =>
      (exists le, e = LayoutError le) /\
      ~ layout_accepted layout_str number_bots
  end.
Proof.
  unfold check_layout, layout_accepted.
  set (bot_ids := bot_ids_of number_bots).
  set (legal := layout_chars ++ bot_ids ++ [chr1 newline]).
  pose proof (check_chars_spec legal bot_ids layout_str []) as Hchars.
  destruct (for_each (check_char _ _) _ _) as [e|E]; cbn.
  { destruct Hchars as [He Hn]. split; [done|].
    intros (Hall & Hm & _). apply Hn. repeat split; [done|set_solver|].
    rewrite Hm. apply NoDup_bot_ids. }
  destruct Hchars as [(Hall & _ & Hnd) ->]. rewrite app_nil_l.
  destruct (decide (bot_ids ≠ _)) as [Hne|Heq]; cbn.
  { split; [by eauto|]. intros (_ & Hm & _). by apply Hne. }
  apply dec_stable in Heq.
  pose proof (check_all_lines_spec (split newline layout_str)) as Hlines.
  destruct (split_nonempty newline layout_str) as (l0 & rest & Hsplit).
  destruct (for_each (check_line _) _ _) as [e|[]].
  - destruct Hlines as [He Hn]; [by rewrite Hsplit|]. split; [done|].
    by intros (_ & _ & Hrect).
  - repeat split; [done..|]. apply Hlines. by rewrite Hsplit.
Qed.

(** ** The conditions under which check_layout raises *)

Lemma marker_id_Some (N : Z) (c : ascii) (i : Z) :
  marker_id N c = Some i <-> 0 <= i < N /\ chr1 c = str i.
Proof.
  unfold marker_id. split.
  - destruct (digit_value c) as [d|] eqn:Hd; [|done].
    destruct (decide (d < N)); [|done]. intros [= <-].
    pose proof (proj1 (digit_value_Some c d) Hd) as [Hd' _].
    split; [lia|]. symmetry. apply str_chr1; [lia|done].
  - intros [Hi Hs]. symmetry in Hs. apply str_chr1 in Hs; [|lia].
    rewrite Hs. destruct (decide (i < N)); [done|lia].
Qed.

Lemma is_marker_bot_ids (N : Z) (c : ascii) :
  is_marker N c <-> chr1 c ∈ bot_ids_of N.
Proof. unfold is_marker. by rewrite elem_of_bot_ids. Qed.

Lemma markers_of_marker_ids (N : Z) (s : list ascii) :
  markers_of (bot_ids_of N) s = str <$> omap (marker_id N) s.
Proof.
  unfold markers_of. induction s as [|c s IH]; [done|].
  rewrite fmap_cons. cbn [omap list_omap].
  destruct (marker_id N c) as [i|] eqn:Hid.
  - apply marker_id_Some in Hid as [Hi Hs].
    rewrite filter_cons_True by (apply elem_of_bot_ids; eauto).
    rewrite fmap_cons, IH. by f_equal.
  - rewrite filter_cons_False; [done|].
    intros (i & Hi & Hs)%elem_of_bot_ids.
    assert (marker_id N c = Some i) by by apply marker_id_Some.
    congruence.
Qed.

Lemma marker_count_pos (s : list ascii) (i : Z) :
  (0 < marker_count s i)%nat <-> exists c, c ∈ s /\ chr1 c = str i.
Proof.
  unfold marker_count. split.
  - destruct (filter _ s) as [|c l] eqn:Hf; cbn; [lia|]. intros _.
    assert (c ∈ filter (fun c => chr1 c = str i) s) as Hc
      by (rewrite Hf; left).
    apply list_elem_of_filter in Hc as [? ?]. eauto.
  - intros (c & Hc & Hs).
    assert (c ∈ filter (fun c => chr1 c = str i) s) as Hc'
      by by apply list_elem_of_filter.
    destruct (filter _ s); [by apply elem_of_nil in Hc'|cbn; lia].
Qed.

Lemma marker_count_NoDup (N : Z) (s : list ascii) (i : Z) :
  0 <= i < N ->
  NoDup (markers_of (bot_ids_of N) s) -> (marker_count s i <= 1)%nat.
Proof.
  intros Hi. unfold markers_of. induction s as [|c s IH]; [cbn; lia|].
  rewrite fmap_cons. unfold marker_count in *.
  destruct (decide (chr1 c = str i)) as [Hc|Hc].
  - rewrite (filter_cons_True (fun c => chr1 c = str i)) by done.
    rewrite filter_cons_True by (apply elem_of_bot_ids; eauto).
    intros [Hnotin Hnd]%NoDup_cons. cbn.
    destruct (filter (fun c => chr1 c = str i) s) as [|c' l] eqn:Hf;
      [cbn; lia|].
    exfalso. apply Hnotin.
    assert (c' ∈ filter (fun c => chr1 c = str i) s) as Hc'
      by (rewrite Hf; left).
    apply list_elem_of_filter in Hc' as [Hs' Hin].
    apply list_elem_of_filter. split.
    + apply elem_of_bot_ids; eauto.
    + rewrite Hc, <-Hs'. by apply list_elem_of_fmap_2.
  - rewrite (filter_cons_False (fun c => chr1 c = str i)) by done.
    intros Hnd. apply IH.
    destruct (decide (chr1 c ∈ bot_ids_of N)).
    + rewrite filter_cons_True in Hnd by done. by apply NoDup_cons in Hnd as [_ ?].
    + by rewrite filter_cons_False in Hnd by done.
Qed.

Lemma legal_char_cases (N : Z) (c : ascii) :
  chr1 c ∈ layout_chars ++ bot_ids_of N ++ [chr1 newline] <->
  c = wall \/ c = food \/ c = harvester \/ c = destroyer \/ c = free \/
  c = newline \/ is_marker N c.
Proof.
  rewrite !elem_of_app, <-is_marker_bot_ids, list_elem_of_singleton.
  unfold layout_chars. rewrite !elem_of_cons, elem_of_nil.
  split.
  - intros [[H|[H|[H|[H|[H|[]]]]]]|[H|H]];
      try apply chr1_inj in H; tauto.
  - intros [->|[->|[->|[->|[->|[->|H]]]]]]; tauto.
Qed.

Lemma layout_accepted_no_error (s : list ascii) (N : Z) :
  layout_accepted s N -> ~ layout_error_cond s N.
Proof.
  intros (Hall & Hm & Hrect) [Hill|[Hmiss|[Hdup|Hrows]]].
  - destruct Hill as (c & Hc & ? & ? & ? & ? & ? & ? & Hnm).
    rewrite Forall_forall in Hall. apply Hall, legal_char_cases in Hc. tauto.
  - destruct Hmiss as (i & Hi & Hcount).
    assert (str i ∈ markers_of (bot_ids_of N) s) as Hin.
    { rewrite Hm. apply elem_of_bot_ids. eauto. }
    apply list_elem_of_filter in Hin as [_ (c & Hs & Hc)%list_elem_of_fmap].
    assert (0 < marker_count s i)%nat; [|lia].
    apply marker_count_pos. eauto.
  - destruct Hdup as (i & Hi & Hcount).
    pose proof (marker_count_NoDup N s i Hi) as Hle.
    rewrite Hm in Hle. specialize (Hle (NoDup_bot_ids N)). lia.
  - destruct Hrows as (l0 & row & Hl0 & Hrow & Hne).
    by apply Hne, Hrect.
Qed.

Lemma StronglySorted_seqZ (m : Z) (n : nat) :
  StronglySorted Z.lt (seqZ m (Z.of_nat n)).
Proof.
  induction n as [|n IH].
  - rewrite seqZ_nil by lia. constructor.
  - rewrite seqZ_S. apply StronglySorted_app_2; [|done|].
    + intros x1 x2 Hx1%elem_of_seqZ ->%list_elem_of_singleton. lia.
    + repeat constructor.
Qed.

Lemma StronglySorted_lt_NoDup (l : list Z) : StronglySorted Z.lt l -> NoDup l.
Proof.
  induction 1 as [|x l _ IH Hx]; constructor; [|done].
  intros Hin. rewrite Forall_forall in Hx. specialize (Hx _ Hin). lia.
Qed.

Lemma marker_ids_sorted (N : Z) (s : list ascii) :
  markers_ascending s N -> StronglySorted Z.lt (omap (marker_id N) s).
Proof.
  induction s as [|c s IH]; intros Hasc; [constructor|].
  assert (markers_ascending s N) as Hasc'.
  { intros p q cp cq i j Hpq Hp Hq. apply (Hasc (S p) (S q)); [lia|done..]. }
  cbn [omap list_omap]. destruct (marker_id N c) as [i|] eqn:Hid; [|by apply IH].
  constructor; [by apply IH|].
  apply Forall_forall. intros j (c' & [q Hq]%list_elem_of_lookup_1 & Hj)%list_elem_of_omap.
  apply marker_id_Some in Hid as [Hi Hsi], Hj as [Hj Hsj].
  by apply (Hasc 0%nat (S q) c c' i j); [lia|..].
Qed.

Lemma no_error_layout_accepted (s : list ascii) (N : Z) :
  ~ layout_error_cond s N -> markers_ascending s N -> layout_accepted s N.
Proof.
  intros Hno Hasc. repeat split.
  - apply Forall_forall. intros c Hc.
    destruct (decide (chr1 c ∈ layout_chars ++ bot_ids_of N ++ [chr1 newline]))
      as [|Hill]; [done|].
    exfalso. apply Hno. left. exists c. rewrite legal_char_cases in Hill.
    repeat split; try done; intros ?; apply Hill; tauto.
  - rewrite markers_of_marker_ids. unfold bot_ids_of, range. f_equal.
    assert (0 <= N \/ N < 0) as [HN|HN] by lia.
    + replace N with (Z.of_nat (Z.to_nat N)) at 2 by lia.
      apply (StronglySorted_unique_strong Z.lt).
      * intros; lia.
      * by apply marker_ids_sorted.
      * apply StronglySorted_seqZ.
      * apply NoDup_Permutation.
        -- by apply StronglySorted_lt_NoDup, marker_ids_sorted.
        -- apply NoDup_seqZ.
        -- intros i. rewrite list_elem_of_omap, elem_of_seqZ. split.
           ++ intros (c & _ & [Hi _]%marker_id_Some). lia.
           ++ intros Hi.
              destruct (decide (marker_count s i = 0%nat)) as [Hz|Hnz].
              { exfalso. apply Hno. right. left. exists i. split; [lia|done]. }
              destruct (proj1 (marker_count_pos s i)) as (c & Hc & Hs); [lia|].
              exists c. split; [done|]. apply marker_id_Some. split; [lia|done].
    + rewrite seqZ_nil by lia.
      destruct (omap (marker_id N) s) as [|i l] eqn:Ho; [done|].
      assert (i ∈ omap (marker_id N) s) as Hi by (rewrite Ho; left).
      apply list_elem_of_omap in Hi as (c & _ & [Hi _]%marker_id_Some). lia.
  - intros l0 row Hl0 Hrow.
    destruct (decide (List.length row = List.length l0)) as [|Hne]; [done|].
    exfalso. apply Hno. do 3 right. by exists l0, row.
Qed.

(** C1 (as amended): [check_layout] raises the layout error whenever the
    text contains a character that is not one of [layout_chars] (wall,
    food, harvester, destroyer, free), a newline or a bot marker, or some
    bot marker is missing, or some bot marker occurs twice, or some row's
    length differs from the first row's; it returns without raising when
    none of these holds and the markers occur in the text in the order of
    their ids. *)
Theorem check_layout_error_conditions (layout_str : list ascii)
    (number_bots : Z) :
  (layout_error_cond layout_str number_bots ->
     raises_layout_error (check_layout layout_str number_bots)) /\
  (~ layout_error_cond layout_str number_bots ->
     markers_ascending layout_str number_bots ->
     check_layout layout_str number_bots = inr tt).
Proof.
  pose proof (check_layout_spec layout_str number_bots) as Hspec.
  split.
  - intros Hcond. destruct (check_layout _ _) as [e|[]].
    + destruct Hspec as [[le ->] _]. by exists le.
    + by apply layout_accepted_no_error in Hspec.
  - intros Hno Hasc. destruct (check_layout _ _) as [e|[]]; [|done].
    destruct Hspec as [_ Hn]. exfalso.
    by apply Hn, no_error_layout_accepted.
Qed.

(** X20: bot markers are single characters: with more than ten bots the
    id ["10"] can never be found, and [check_layout] raises the layout
    error on every text. *)
Lemma check_layout_more_than_ten_bots (layout_str : list ascii) (N : Z) :
  10 < N -> raises_layout_error (check_layout layout_str N).
Proof.
  intros HN. pose proof (check_layout_spec layout_str N) as Hspec.
  destruct (check_layout _ _) as [e|[]].
  { destruct Hspec as [[le ->] _]. by exists le. }
  exfalso. destruct Hspec as (_ & Hm & _).
  assert (str 10 ∈ markers_of (bot_ids_of N) layout_str) as Hin.
  { rewrite Hm. apply elem_of_bot_ids. exists 10. split; [lia|done]. }
  apply list_elem_of_filter in Hin as [_ (c & Hs & _)%list_elem_of_fmap].
  apply str_chr1 in Hs; [|lia].
  apply digit_value_Some in Hs as [? _]. lia.
Qed.

(** ** check_layout on concrete layouts *)

Lemma not_is_marker_intro (N : Z) (c : ascii) :
  chr1 c ∉ bot_ids_of N -> ~ is_marker N c.
Proof. by rewrite is_marker_bot_ids. Qed.

Lemma rows_equal_not_rectangular (s : list ascii) (n : nat) :
  Forall (fun row => List.length row = n) (split newline s) ->
  ~ not_rectangular s.
Proof.
  rewrite Forall_forall. intros Hall (l0 & row & Hl0 & Hrow & Hne).
  apply Hne. rewrite (Hall row Hrow). symmetry. apply Hall.
  destruct (split newline s); simplify_eq/=. left.
Qed.

Lemma marker_counts_exactly_once (s : list ascii) (N : Z) :
  Forall (fun i => marker_count s i = 1%nat) (range N) ->
  ~ marker_missing s N /\ ~ marker_duplicated s N.
Proof.
  unfold range. rewrite Forall_seqZ. intros Hall.
  split; intros (i & Hi & Hc); rewrite Hall in Hc by lia; lia.
Qed.

Lemma unrecognized_char_spec_Forall (s : list ascii) (N : Z) :
  Forall (fun c => chr1 c ∈ [chr1 wall; chr1 food; chr1 free; chr1 newline]
                            ++ bot_ids_of N) s ->
  ~ unrecognized_char_spec s N.
Proof.
  rewrite Forall_forall.
  intros Hall (c & Hc & Hw & Hf & Hfr & Hnl & Hm).
  apply Hall in Hc. rewrite elem_of_app, <-is_marker_bot_ids in Hc.
  rewrite !elem_of_cons, elem_of_nil in Hc.
  destruct Hc as [[H|[H|[H|[H|[]]]]]|H]; try apply chr1_inj in H; done.
Qed.

Lemma illegal_char_weaker (s : list ascii) (N : Z) :
  illegal_char s N -> unrecognized_char_spec s N.
Proof.
  intros (c & ? & ? & ? & ? & ? & ? & ? & ?). exists c. tauto.
Qed.

Lemma layout_error_cond_weaker (s : list ascii) (N : Z) :
  layout_error_cond s N -> layout_error_spec s N.
Proof.
  unfold layout_error_cond, layout_error_spec.
  intros [?%illegal_char_weaker|?]; tauto.
Qed.

Lemma two_bot_row_no_error : ~ layout_error_spec two_bot_row 2.
Proof.
  assert (~ marker_missing two_bot_row 2 /\ ~ marker_duplicated two_bot_row 2)
    as [Hm Hd].
  { apply marker_counts_exactly_once. compute_done. }
  intros [H|[H|[H|H]]]; [|done|done|].
  - revert H. apply unrecognized_char_spec_Forall.
    compute_done.
  - revert H. apply (rows_equal_not_rectangular _ 5).
    compute_done.
Qed.

Lemma two_bot_row_ascending : markers_ascending two_bot_row 2.
Proof.
  intros p q cp cq i j Hpq Hp Hq Hi Hj Hsi Hsj.
  assert (marker_id 2 cp = Some i) as Hidp by by apply marker_id_Some.
  assert (marker_id 2 cq = Some j) as Hidq by by apply marker_id_Some.
  destruct p as [|[|[|[|[|p]]]]]; cbn in Hp; try done;
    injection Hp as <-; vm_compute in Hidp; try done; injection Hidp as <-;
    (destruct q as [|[|[|[|[|q]]]]]; cbn in Hq; try done;
     injection Hq as <-; vm_compute in Hidq; try done; injection Hidq as <-);
    lia.
Qed.

Lemma row_with_x_illegal : illegal_char row_with_x 1.
Proof.
  exists "x"%char. split; [|repeat split; try done].
  - compute_done.
  - apply not_is_marker_intro. compute_done.
Qed.

Lemma check_layout_error_conditions_witness :
  raises_layout_error (check_layout row_with_x 1) /\
  check_layout two_bot_row 2 = inr tt.
Proof.
  split.
  - apply (proj1 (check_layout_error_conditions row_with_x 1)).
    left. exact row_with_x_illegal.
  - apply (proj2 (check_layout_error_conditions two_bot_row 2)).
    + intros H. exact (two_bot_row_no_error (layout_error_cond_weaker _ _ H)).
    + exact two_bot_row_ascending.
Defined.

(** C1 as stated fails: the text ["0c"] holds the harvester character ['c'],
    which is none of wall, food, free, newline or a bot marker, so the
    first of the four conditions holds; [check_layout] accepts it for one
    bot. *)
Lemma check_layout_accepts_harvester :
  ~ (raises_layout_error (check_layout row_with_harvester 1) <->
     layout_error_spec row_with_harvester 1).
Proof.
  intros [_ Hraise]. destruct Hraise as [e He]; [|by vm_compute in He].
  left. exists harvester. split; [|repeat split; try done].
  - compute_done.
  - apply not_is_marker_intro. compute_done.
Qed.

(** C5: the layout of the repository's own tests (section 8 of the
    specification) holds each of the markers 0..3 exactly once, is
    rectangular and uses only wall, food, free, newline and marker
    characters, that is, none of the four error conditions holds; yet
    [check_layout] raises for 4 bots, reporting an empty list of missing
    ids, because the markers occur in the order 0, 2, 1, 3.  The same
    happens for 2 bots on the one-row text ["10"]. *)
Theorem check_layout_rejects_unordered_markers :
  (~ layout_error_spec (strip_layout scenario_layout) 4 /\
   Forall (fun i => marker_count (strip_layout scenario_layout) i = 1%nat)
          (range 4) /\
   check_layout (strip_layout scenario_layout) 4
     = inl (LayoutError (MissingIds 4 []))) /\
  (Forall (fun i => marker_count (text "10") i = 1%nat) (range 2) /\
   check_layout (text "10") 2 = inl (LayoutError (MissingIds 2 []))).
Proof.
  assert (Forall (fun i => marker_count (strip_layout scenario_layout) i = 1%nat)
                 (range 4)) as Hcount
    by (compute_done).
  split; [split; [|split; [done|by vm_compute]]|].
  - destruct (marker_counts_exactly_once _ _ Hcount) as [Hm Hd].
    intros [H|[H|[H|H]]]; [|done|done|].
    + revert H. apply unrecognized_char_spec_Forall.
      compute_done.
    + revert H. apply (rows_equal_not_rectangular _ 18).
      compute_done.
  - split; [compute_done|by vm_compute].
Qed.

(** ** split, join, strip and find *)

Lemma split_no_sep (sep : ascii) (l : list ascii) :
  sep ∉ l -> split sep l = [l].
Proof.
  induction l as [|c l IH]; [done|]. intros Hnot.
  apply not_elem_of_cons in Hnot as [Hne Hnot]. cbn.
  destruct (decide (c = sep)); [done|]. by rewrite IH.
Qed.

Lemma split_app_sep (sep : ascii) (l rest : list ascii) :
  sep ∉ l -> split sep (l ++ sep :: rest) = l :: split sep rest.
Proof.
  induction l as [|c l IH]; intros Hnot.
  - cbn. by destruct (decide (sep = sep)).
  - apply not_elem_of_cons in Hnot as [Hne Hnot]. cbn.
    destruct (decide (c = sep)); [done|]. by rewrite IH.
Qed.

Lemma split_rows_no_sep (sep : ascii) (s : list ascii) :
  Forall (fun l => sep ∉ l) (split sep s).
Proof.
  induction s as [|c s IH]; cbn.
  - repeat constructor. apply not_elem_of_nil.
  - destruct (decide (c = sep)) as [->|Hne].
    + constructor; [apply not_elem_of_nil|done].
    + destruct (split sep s) as [|l ls].
      * repeat constructor. apply not_elem_of_cons. split; [done|].
        apply not_elem_of_nil.
      * inversion IH; subst. constructor; [|done].
        apply not_elem_of_cons. by split.
Qed.

Lemma split_join (sep : ascii) (ls : list (list ascii)) :
  ls <> [] -> Forall (fun l => sep ∉ l) ls -> split sep (join [sep] ls) = ls.
Proof.
  induction ls as [|l ls IH]; [done|]. intros _ Hall.
  inversion Hall as [|?? Hl Hls]; subst. cbn [join].
  destruct ls as [|l' ls'].
  - by apply split_no_sep.
  - cbn [app]. rewrite split_app_sep by done. f_equal. by apply IH.
Qed.

Lemma elem_of_split (sep c : ascii) (s : list ascii) :
  c ∈ s -> c <> sep -> exists row, row ∈ split sep s /\ c ∈ row.
Proof.
  intros Hc Hne. induction s as [|a s IH]; [by apply elem_of_nil in Hc|].
  destruct (split_nonempty sep s) as (l0 & rest & Hs). cbn. rewrite Hs in *.
  apply elem_of_cons in Hc as [->|Hc].
  - destruct (decide (a = sep)); [done|].
    exists (a :: l0). split; left.
  - destruct (IH Hc) as (row & Hrow & Hin).
    destruct (decide (a = sep)).
    + exists row. split; [by right|done].
    + apply elem_of_cons in Hrow as [->|Hrow].
      * exists (a :: l0). split; [left|by right].
      * exists row. split; [by right|done].
Qed.

Lemma find_from_split (sep : ascii) (s : list ascii) :
  forall k l0 rest, split sep s = l0 :: rest ->
    find_from sep s k = match rest with [] => -1 | _ => k + len l0 end.
Proof.
  induction s as [|c s IH]; intros k l0 rest; cbn.
  - by intros [= <- <-].
  - destruct (decide (c = sep)).
    + intros [= <- <-].
      destruct (split_nonempty sep s) as (l' & rest' & ->). unfold len. cbn. lia.
    + destruct (split sep s) as [|l' rest'] eqn:Hs.
      { destruct (split_nonempty sep s) as (? & ? & ?). congruence. }
      intros [= <- <-]. rewrite (IH (k + 1) l' rest' eq_refl).
      destruct rest'; [done|]. unfold len. cbn. lia.
Qed.

Lemma lstrip_sublist (l : list ascii) (c : ascii) : c ∈ lstrip l -> c ∈ l.
Proof.
  induction l as [|a l IH]; [done|]. cbn.
  destruct (isspace a); [|done]. intros ?. right. by apply IH.
Qed.

Lemma strip_sublist (l : list ascii) (c : ascii) : c ∈ strip l -> c ∈ l.
Proof.
  unfold strip, rstrip. rewrite elem_of_reverse.
  intros Hc%lstrip_sublist. rewrite elem_of_reverse in Hc.
  by apply lstrip_sublist.
Qed.

Lemma lstrip_fixed (a : ascii) (l : list ascii) :
  isspace a = false -> lstrip (a :: l) = a :: l.
Proof. intros Ha. cbn. by rewrite Ha. Qed.

Lemma lstrip_snoc (l : list ascii) (c : ascii) :
  isspace c = false -> lstrip (l ++ [c]) = lstrip l ++ [c].
Proof.
  intros Hc. induction l as [|a l IH]; cbn; [by rewrite Hc|].
  by destruct (isspace a).
Qed.

Lemma lstrip_head (l : list ascii) :
  lstrip l = [] \/ exists a l', lstrip l = a :: l' /\ isspace a = false.
Proof.
  induction l as [|a l IH]; [by left|]. cbn.
  destruct (isspace a) eqn:Ha; [done|]. right. eauto.
Qed.

Lemma lstrip_idemp (l : list ascii) : lstrip (lstrip l) = lstrip l.
Proof.
  destruct (lstrip_head l) as [->|(a & l' & -> & Ha)]; [done|].
  by apply lstrip_fixed.
Qed.

Lemma rstrip_cons (a : ascii) (l : list ascii) :
  isspace a = false -> rstrip (a :: l) = a :: rstrip l.
Proof.
  intros Ha. unfold rstrip. rewrite reverse_cons, lstrip_snoc by done.
  by rewrite reverse_app.
Qed.

Lemma strip_idemp (l : list ascii) : strip (strip l) = strip l.
Proof.
  unfold strip.
  assert (lstrip (rstrip (lstrip l)) = rstrip (lstrip l)) as ->.
  { destruct (lstrip_head l) as [->|(a & l' & -> & Ha)]; [done|].
    rewrite rstrip_cons by done. by apply lstrip_fixed. }
  unfold rstrip. by rewrite reverse_involutive, lstrip_idemp.
Qed.

(** The checked text has the stripped lines as its rows, and the grid
    built from it is made of exactly these rows. *)
Lemma split_strip_layout (layout_str : list ascii) :
  split newline (strip_layout layout_str) =
  strip <$> split newline layout_str.
Proof.
  unfold strip_layout. apply split_join.
  - destruct (split_nonempty newline layout_str) as (? & ? & ->). done.
  - apply Forall_fmap, (Forall_impl _ _ _ (split_rows_no_sep _ _)).
    intros l Hl ?%strip_sublist. done.
Qed.

Lemma convert_to_grid_strip_layout (layout_str : list ascii) :
  convert_to_grid (strip_layout layout_str) =
  split newline (strip_layout layout_str).
Proof.
  unfold convert_to_grid. rewrite split_strip_layout, <-list_fmap_compose.
  apply list_fmap_ext. intros _ l _. apply strip_idemp.
Qed.

(** ** Loops and grids *)

(** Invariant rule for [for_each]: [I done s] relates the state to the
    elements already visited. *)
Lemma for_each_inv {S X} (body : S -> X -> result S) (I : list X -> S -> Prop)
    (all : list X) :
  (forall done x rest s, all = done ++ x :: rest -> I done s ->
     exists s', body s x = inr s' /\ I (done ++ [x]) s') ->
  forall rest done s, all = done ++ rest -> I done s ->
    exists s', for_each body rest s = inr s' /\ I all s'.
Proof.
  intros Hstep. induction rest as [|x rest IH]; intros done s Hall Hinv.
  - rewrite app_nil_r in Hall. subst. by exists s.
  - destruct (Hstep done x rest s Hall Hinv) as (s' & Hbody & Hinv').
    py_simpl. rewrite Hbody. py_simpl. apply (IH (done ++ [x])); [|done].
    by rewrite <-app_assoc.
Qed.

Lemma elem_of_coords (H W h w : Z) :
  (h, w) ∈ coords H W <-> 0 <= h < H /\ 0 <= w < W.
Proof.
  unfold coords, range. rewrite list_elem_of_bind. split.
  - intros (h' & Hw & Hh). apply list_elem_of_fmap in Hw as (w' & [= -> ->] & Hw).
    apply elem_of_seqZ in Hh, Hw. lia.
  - intros [Hh Hw]. exists h. split; [|apply elem_of_seqZ; lia].
    apply list_elem_of_fmap. exists w. split; [done|]. apply elem_of_seqZ. lia.
Qed.

Section grids.
Context {A : Type}.
Implicit Types (g : list (list A)) (row : list A) (x : A).

Lemma grid_get_nonneg g (h w : Z) :
  0 <= h -> 0 <= w ->
  grid_get g h w =
    match g !! Z.to_nat h with
    | Some row => match row !! Z.to_nat w with
                  | Some x => inr x
                  | None => inl IndexError
                  end
    | None => inl IndexError
    end.
Proof.
  intros Hh Hw. unfold grid_get. rewrite py_getitem_nonneg by done.
  destruct (g !! Z.to_nat h); [|done]. cbn. by rewrite py_getitem_nonneg.
Qed.

Lemma rect_lookup (H W : Z) g (h w : Z) :
  rect H W g -> 0 <= h < H -> 0 <= w < W ->
  exists row x, g !! Z.to_nat h = Some row /\ row !! Z.to_nat w = Some x /\
                len row = W.
Proof.
  intros [Hlen Hrows] Hh Hw.
  destruct (lookup_lt_is_Some_2 g (Z.to_nat h)) as [row Hrow];
    [unfold len in Hlen; lia|].
  assert (len row = W) as HW.
  { rewrite Forall_forall in Hrows. apply Hrows.
    by eapply list_elem_of_lookup_2. }
  destruct (lookup_lt_is_Some_2 row (Z.to_nat w)) as [x Hx];
    [unfold len in HW; lia|].
  by exists row, x.
Qed.

Lemma grid_get_rect (H W : Z) g (h w : Z) :
  rect H W g -> 0 <= h < H -> 0 <= w < W -> exists x, grid_get g h w = inr x.
Proof.
  intros Hg Hh Hw.
  destruct (rect_lookup H W g h w Hg Hh Hw) as (row & x & Hrow & Hx & _).
  exists x. rewrite grid_get_nonneg by lia. by rewrite Hrow, Hx.
Qed.

Lemma grid_set_rect (H W : Z) g (h w : Z) x :
  rect H W g -> 0 <= h < H -> 0 <= w < W ->
  exists g',
    grid_set g h w x = inr g' /\
    rect H W g' /\
    grid_get g' h w = inr x /\
    (forall h' w', 0 <= h' -> 0 <= w' -> (h', w') <> (h, w) ->
       grid_get g' h' w' = grid_get g h' w').
Proof.
  intros Hg Hh Hw.
  destruct (rect_lookup H W g h w Hg Hh Hw) as (row & y & Hrow & Hy & HW).
  destruct Hg as [Hlen Hrows].
  exists (<[Z.to_nat h := <[Z.to_nat w := x]> row]> g).
  assert (Z.to_nat h < List.length g)%nat as Hhlt
    by (unfold len in Hlen; lia).
  assert (Z.to_nat w < List.length row)%nat as Hwlt
    by (unfold len in HW; lia).
  split; [|split; [|split]].
  - unfold grid_set. rewrite (py_getitem_lookup g h row) by (done || lia).
    cbn. rewrite py_setitem_nonneg by lia. cbn.
    rewrite py_setitem_nonneg by lia. done.
  - split.
    + unfold len. by rewrite length_insert.
    + apply Forall_insert; [done|]. unfold len. by rewrite length_insert.
  - rewrite grid_get_nonneg by lia.
    rewrite list_lookup_insert_eq by done.
    by rewrite list_lookup_insert_eq.
  - intros h' w' Hh' Hw' Hne. rewrite !grid_get_nonneg by done.
    destruct (decide (Z.to_nat h' = Z.to_nat h)) as [Heq|Hneq].
    + rewrite Heq, list_lookup_insert_eq, Hrow by done.
      rewrite list_lookup_insert_ne; [done|].
      intros Heqw. apply Hne. f_equal; lia.
    + by rewrite list_lookup_insert_ne.
Qed.
End grids.

Lemma rect_fresh_grid (H W : Z) (h w : Z) :
  let food_grid :=
    (fun _ : Z => (fun _ : Z => false) <$> range W) <$> range H in
  rect (Z.max 0 H) (Z.max 0 W) food_grid /\
  (0 <= h < H -> 0 <= w < W -> grid_get food_grid h w = inr false).
Proof.
  cbn. split; [split|].
  - unfold len, range. rewrite length_fmap, length_seqZ. lia.
  - apply Forall_fmap, Forall_forall. intros ? _. cbn.
    unfold len, range. rewrite length_fmap, length_seqZ. lia.
  - intros Hh Hw. rewrite grid_get_nonneg by lia. unfold range.
    rewrite list_lookup_fmap, lookup_seqZ_lt by lia. cbn.
    rewrite list_lookup_fmap, lookup_seqZ_lt by lia. done.
Qed.

(** ** initial_positions and extract_food on a rectangular grid *)

Lemma space_not_marker (N : Z) : chr1 " " ∉ bot_ids_of N.
Proof.
  intros (i & Hi & Hs)%elem_of_bot_ids. symmetry in Hs.
  apply str_chr1 in Hs; [|lia]. by vm_compute in Hs.
Qed.

Lemma clear_marker_not_marker (N : Z) (c : ascii) :
  chr1 (clear_marker (bot_ids_of N) c) ∉ bot_ids_of N.
Proof.
  unfold clear_marker. destruct (decide _); [apply space_not_marker|done].
Qed.

Lemma marker_int (N : Z) (c : ascii) :
  chr1 c ∈ bot_ids_of N ->
  exists i, 0 <= i < N /\ chr1 c = str i /\ int (chr1 c) = inr i.
Proof.
  intros (i & Hi & Hs)%elem_of_bot_ids. exists i. repeat split; [lia..|done|].
  apply int_chr1. apply str_chr1; [lia|done].
Qed.

Lemma elem_of_snoc_ne {X} (done : list X) (x y : X) :
  y <> x -> y ∈ done ++ [x] <-> y ∈ done.
Proof.
  intros Hne. rewrite elem_of_app, list_elem_of_singleton. tauto.
Qed.

Lemma elem_of_snoc_eq {X} (done : list X) (x : X) : x ∈ done ++ [x].
Proof. apply elem_of_app. right. by apply list_elem_of_singleton. Qed.

Lemma initial_positions_step (g0 : list (list ascii)) (H W N : Z)
    (done : list (Z * Z)) (h w : Z) st :
  rect H W g0 -> 0 <= h < H -> 0 <= w < W ->
  initial_positions_inv g0 H W N done st ->
  exists st',
    initial_positions_body (bot_ids_of N) st (h, w) = inr st' /\
    initial_positions_inv g0 H W N (done ++ [(h, w)]) st'.
Proof.
  intros Hg0 Hh Hw (Hg & Hlen & Hcells & Hstart).
  destruct st as [g start]. cbn [fst snd] in *.
  destruct (grid_get_rect H W g0 h w Hg0 Hh Hw) as [c0 Hc0].
  pose proof (Hcells h w c0 Hh Hw Hc0) as Hcur.
  set (cur := if decide ((h, w) ∈ done) then clear_marker (bot_ids_of N) c0
              else c0) in Hcur.
  unfold initial_positions_body. rewrite Hcur. py_simpl.
  destruct (decide (chr1 cur ∈ bot_ids_of N)) as [Hm|Hnm].
  - (* the cell holds a marker: it has not been cleared yet *)
    assert (cur = c0) as Hcc.
    { unfold cur in *. destruct (decide ((h, w) ∈ done)); [|done].
      by apply clear_marker_not_marker in Hm. }
    rewrite Hcc in *. clear Hcc.
    destruct (marker_int N c0 Hm) as (i & Hi & Hs & ->). py_simpl.
    rewrite py_setitem_nonneg by lia. py_simpl.
    destruct (grid_set_rect H W g h w " "%char Hg Hh Hw)
      as (g' & -> & Hg' & Hsame & Hother).
    py_simpl. eexists. split; [done|].
    split; [done|]. cbn [fst snd]. split; [|split].
    + unfold len. rewrite length_insert. done.
    + intros h1 w1 c1 Hh1 Hw1 Hc1.
      destruct (decide ((h1, w1) = (h, w))) as [[= -> ->]|Hne].
      * rewrite Hsame. rewrite decide_True by apply elem_of_snoc_eq.
        assert (c1 = c0) as -> by congruence.
        unfold clear_marker. by rewrite decide_True.
      * rewrite Hother by (done || lia). rewrite (Hcells h1 w1 c1) by done.
        f_equal. apply decide_ext. symmetry. by apply elem_of_snoc_ne.
    + intros i1 h1 w1 c1 Hi1 Hin Hh1 Hw1 Hc1 Hs1.
      destruct (decide (i1 = i)) as [->|Hne].
      * exists h, w, c0. rewrite list_lookup_insert_eq by (unfold len in Hlen; lia).
        done.
      * assert ((h1, w1) <> (h, w)) as Hne'.
        { intros [= -> ->]. apply Hne, str_inj. congruence. }
        apply elem_of_snoc_ne in Hin; [|done].
        destruct (Hstart i1 h1 w1 c1) as (h' & w' & c' & Hlk & Hrest); [done..|].
        exists h', w', c'. split; [|done].
        rewrite list_lookup_insert_ne; [done|lia].
  - eexists. split; [done|].
    split; [done|]. cbn [fst snd]. split; [done|]. split.
    + intros h1 w1 c1 Hh1 Hw1 Hc1.
      destruct (decide ((h1, w1) = (h, w))) as [[= -> ->]|Hne].
      * rewrite Hcur. rewrite decide_True by apply elem_of_snoc_eq.
        assert (c1 = c0) as -> by congruence. f_equal.
        unfold cur in *. destruct (decide ((h, w) ∈ done)); [done|].
        unfold clear_marker. by rewrite decide_False.
      * rewrite (Hcells h1 w1 c1) by done.
        f_equal. apply decide_ext. symmetry. by apply elem_of_snoc_ne.
    + intros i1 h1 w1 c1 Hi1 Hin Hh1 Hw1 Hc1 Hs1.
      apply (Hstart i1 h1 w1 c1); try done.
      destruct (decide ((h1, w1) = (h, w))) as [[= -> ->]|Hne];
        [|by apply elem_of_snoc_ne in Hin].
      assert (c1 = c0) as -> by congruence.
      unfold cur in Hnm.
      destruct (decide ((h, w) ∈ done)) as [|Hnd]; [done|].
      exfalso. apply Hnm, elem_of_bot_ids. eauto.
Qed.

(** [initial_positions] on a rectangular grid, called with its shape:
    it returns; every marker cell has become free; every bot whose marker
    is in the grid gets a cell that held its marker. *)
Lemma initial_positions_spec (g0 : list (list ascii)) (H W N : Z) :
  rect H W g0 ->
  exists g start,
    initial_positions g0 (H, W) N = inr (g, start) /\
    initial_positions_inv g0 H W N (coords H W) (g, start).
Proof.
  intros Hg0. unfold initial_positions. cbn [fst snd].
  destruct (for_each_inv (initial_positions_body (bot_ids_of N))
              (initial_positions_inv g0 H W N) (coords H W))
    with (rest := coords H W) (done := @nil (Z * Z))
         (s := (g0, replicate (Z.to_nat N) (0, 0)))
    as ([g start] & Hrun & Hinv).
  - intros done [h w] rest st Hall Hinv.
    assert ((h, w) ∈ coords H W) as [Hh Hw]%elem_of_coords
      by (rewrite Hall; set_solver).
    by apply initial_positions_step.
  - done.
  - split; [done|]. cbn [fst snd]. split; [|split].
    + unfold len. rewrite length_replicate. lia.
    + intros h w c _ _ Hc. rewrite Hc. by rewrite decide_False by set_solver.
    + intros i h w c _ Hin. by apply elem_of_nil in Hin.
  - by exists g, start.
Qed.

Lemma extract_food_step (g1 : list (list ascii)) (H W : Z)
    (done : list (Z * Z)) (h w : Z) st :
  rect H W g1 -> 0 <= h < H -> 0 <= w < W ->
  extract_food_inv g1 H W done st ->
  exists st',
    extract_food_body st (h, w) = inr st' /\
    extract_food_inv g1 H W (done ++ [(h, w)]) st'.
Proof.
  intros Hg1 Hh Hw (Hg & Hfg & Hcells).
  destruct st as [g fg]. cbn [fst snd] in *.
  destruct (grid_get_rect H W g1 h w Hg1 Hh Hw) as [c0 Hc0].
  destruct (Hcells h w c0 Hh Hw Hc0) as [Hcur Hfcur].
  set (cur := if decide ((h, w) ∈ done) then clear_food c0 else c0) in Hcur.
  unfold extract_food_body. rewrite Hcur. py_simpl.
  destruct (decide (chr1 cur = chr1 food)) as [Hf%chr1_inj|Hnf].
  - (* a food cell: it has not been cleared yet *)
    assert (cur = c0 /\ (h, w) ∉ done) as [Hcc Hnd].
    { unfold cur in *. destruct (decide ((h, w) ∈ done)); [|done].
      exfalso. unfold clear_food in Hf.
      destruct (decide _) as [|Hn]; [done|]. apply Hn. by rewrite Hf. }
    rewrite Hcc in *. clear Hcc. subst c0.
    destruct (grid_set_rect H W fg h w true Hfg Hh Hw)
      as (fg' & -> & Hfg' & Hfsame & Hfother).
    py_simpl.
    destruct (grid_set_rect H W g h w " "%char Hg Hh Hw)
      as (g' & -> & Hg' & Hsame & Hother).
    py_simpl. eexists. split; [done|].
    split; [done|]. split; [done|]. cbn [fst snd].
    intros h1 w1 c1 Hh1 Hw1 Hc1.
    destruct (decide ((h1, w1) = (h, w))) as [[= -> ->]|Hne].
    + rewrite Hsame, Hfsame. rewrite !decide_True by apply elem_of_snoc_eq.
      assert (c1 = food) as -> by congruence.
      unfold clear_food. rewrite decide_True by done.
      by rewrite bool_decide_eq_true_2.
    + rewrite Hother, Hfother by (done || lia).
      destruct (Hcells h1 w1 c1 Hh1 Hw1 Hc1) as [-> ->].
      split; f_equal; apply decide_ext; symmetry; by apply elem_of_snoc_ne.
  - eexists. split; [done|].
    split; [done|]. split; [done|]. cbn [fst snd].
    intros h1 w1 c1 Hh1 Hw1 Hc1.
    destruct (decide ((h1, w1) = (h, w))) as [[= -> ->]|Hne].
    + rewrite Hcur, Hfcur.
      destruct (decide ((h, w) ∈ done ++ [(h, w)])) as [_|Hx];
        [|by destruct Hx; apply elem_of_snoc_eq].
      assert (c1 = c0) as -> by congruence.
      unfold cur in *. destruct (decide ((h, w) ∈ done)); [by split|].
      unfold clear_food. rewrite decide_False by done.
      rewrite bool_decide_eq_false_2; [by split|]. by intros ->.
    + destruct (Hcells h1 w1 c1 Hh1 Hw1 Hc1) as [-> ->].
      split; f_equal; apply decide_ext; symmetry; by apply elem_of_snoc_ne.
Qed.

Lemma extract_food_spec (g1 : list (list ascii)) (H W : Z) :
  rect H W g1 -> 0 <= W ->
  exists g fg,
    extract_food g1 (H, W) = inr (g, fg) /\
    extract_food_inv g1 H W (coords H W) (g, fg).
Proof.
  intros Hg1 HW. unfold extract_food. cbn [fst snd].
  pose proof (len_nonneg g1) as HH. rewrite (proj1 Hg1) in HH.
  destruct (for_each_inv extract_food_body
              (extract_food_inv g1 H W) (coords H W))
    with (rest := coords H W) (done := @nil (Z * Z))
         (s := (g1, (fun _ : Z => (fun _ : Z => false) <$> range W)
                      <$> range H))
    as ([g fg] & Hrun & Hinv).
  - intros done [h w] rest st Hall Hinv.
    assert ((h, w) ∈ coords H W) as [Hh Hw]%elem_of_coords
      by (rewrite Hall; set_solver).
    by apply extract_food_step.
  - done.
  - split; [done|]. cbn [fst snd]. split.
    + pose proof (rect_fresh_grid H W 0 0) as [Hr _].
      by rewrite !Z.max_r in Hr by lia.
    + intros h w c Hh Hw Hc. rewrite Hc.
      rewrite !decide_False by set_solver. split; [done|].
      by apply rect_fresh_grid.
  - by exists g, fg.
Qed.

(** ** The Universe constructor on layouts of at least two rows *)

Lemma check_layout_accepted (s : list ascii) (N : Z) :
  check_layout s N = inr tt -> layout_accepted s N.
Proof.
  intros Hck. pose proof (check_layout_spec s N) as Hspec.
  by rewrite Hck in Hspec.
Qed.

Lemma elem_of_split_rows (sep c : ascii) (s row : list ascii) :
  row ∈ split sep s -> c ∈ row -> c ∈ s.
Proof.
  revert row. induction s as [|a s IH]; intros row; cbn.
  - intros ->%list_elem_of_singleton Hc. by apply elem_of_nil in Hc.
  - destruct (decide (a = sep)).
    + intros [->|Hrow]%elem_of_cons Hc; [by apply elem_of_nil in Hc|].
      right. by apply (IH row).
    + destruct (split sep s) as [|l ls].
      * intros ->%list_elem_of_singleton ->%list_elem_of_singleton. left.
      * intros [->|Hrow]%elem_of_cons Hc.
        -- apply elem_of_cons in Hc as [->|Hc]; [left|right].
           apply (IH l); [left|done].
        -- right. apply (IH row); [by right|done].
Qed.

Lemma grid_get_elem_of {A} (g : list (list A)) (h w : Z) (x : A) :
  0 <= h -> 0 <= w -> grid_get g h w = inr x ->
  exists row, row ∈ g /\ x ∈ row.
Proof.
  intros Hh Hw. rewrite grid_get_nonneg by done.
  destruct (g !! Z.to_nat h) as [row|] eqn:Hrow; [|done].
  destruct (row !! Z.to_nat w) as [y|] eqn:Hy; [|done].
  intros [= ->]. exists row. split; by eapply list_elem_of_lookup_2.
Qed.

Lemma checked_rows (s : list ascii) (N : Z) :
  check_layout s N = inr tt -> 2 <= len (split newline s) ->
  exists W, rect (len (split newline s)) W (split newline s) /\
            find newline s = W /\ 0 <= W.
Proof.
  intros (_ & _ & Hrows)%check_layout_accepted Hlen.
  destruct (split newline s) as [|l0 rest] eqn:Hs;
    [unfold len in Hlen; cbn in Hlen; lia|].
  exists (len l0). split; [split; [done|]|split].
  - apply Forall_forall. intros row Hrow. unfold len. f_equal.
    by apply Hrows.
  - unfold find. rewrite (find_from_split newline s 0 l0 rest Hs).
    destruct rest; [unfold len in Hlen; cbn in Hlen; lia|lia].
  - apply len_nonneg.
Qed.

Lemma checked_marker_cell (s : list ascii) (N H W : Z) (i : Z) :
  check_layout s N = inr tt -> rect H W (split newline s) ->
  0 <= i < N ->
  exists h w c, 0 <= h < H /\ 0 <= w < W /\
    grid_get (split newline s) h w = inr c /\ chr1 c = str i.
Proof.
  intros (_ & Hm & _)%check_layout_accepted [HH HW] Hi.
  assert (str i ∈ markers_of (bot_ids_of N) s) as Hin.
  { rewrite Hm. apply elem_of_bot_ids. eauto. }
  apply list_elem_of_filter in Hin as [_ (c & Hs & Hc)%list_elem_of_fmap].
  assert (c <> newline) as Hnl.
  { intros ->. apply str_chr1 in Hs; [|lia]. by vm_compute in Hs. }
  destruct (elem_of_split newline c s Hc Hnl) as (row & Hrow & Hcrow).
  apply list_elem_of_lookup_1 in Hrow as [h Hh], Hcrow as [w Hw].
  rewrite Forall_forall in HW.
  assert (len row = W) as Hlen by (by eapply HW, list_elem_of_lookup_2).
  apply lookup_lt_Some in Hh as Hhlt, Hw as Hwlt.
  exists (Z.of_nat h), (Z.of_nat w), c. unfold len in *.
  split; [lia|]. split; [lia|]. split; [|done].
  rewrite grid_get_nonneg by lia. by rewrite !Nat2Z.id, Hh, Hw.
Qed.

Lemma checked_cell_legal (s : list ascii) (N : Z) (h w : Z) (c : ascii) :
  check_layout s N = inr tt -> 0 <= h -> 0 <= w ->
  grid_get (split newline s) h w = inr c ->
  c = wall \/ c = food \/ c = harvester \/ c = destroyer \/ c = free \/
  is_marker N c.
Proof.
  intros (Hall & _ & _)%check_layout_accepted Hh Hw Hc.
  destruct (grid_get_elem_of _ h w c Hh Hw Hc) as (row & Hrow & Hin).
  pose proof (split_rows_no_sep newline s) as Hnl.
  rewrite Forall_forall in Hall. rewrite Forall_forall in Hnl.
  pose proof (elem_of_split_rows _ _ _ _ Hrow Hin) as Hcs.
  apply Hall, legal_char_cases in Hcs.
  assert (c <> newline) by (intros ->; by apply (Hnl row)).
  tauto.
Qed.

Lemma food_not_marker (N : Z) : chr1 food ∉ bot_ids_of N.
Proof.
  intros (i & Hi & Hs)%elem_of_bot_ids. symmetry in Hs.
  apply str_chr1 in Hs; [|lia]. by vm_compute in Hs.
Qed.

(** The constructor on a layout that [check_layout] accepts and that has at
    least two rows.  It returns a universe [u] whose stored grid and food
    grid have the rows and columns of the checked layout; [initial_pos] has
    one entry per bot, and the entry of bot [i] is an in-bounds cell that
    held the marker of [i] and is free in the stored grid; every cell of
    the stored grid is the checked cell with markers and food replaced by
    the free character, hence a wall, free, harvester or destroyer
    character; and [food_positions] is [True] exactly at the cells that
    held the food character.  [width] is the number of rows and [height]
    the number of columns. *)
Theorem Universe_init_rows (layout_str : list ascii) (N : Z) :
  let rows := split newline (strip_layout layout_str) in
  check_layout (strip_layout layout_str) N = inr tt ->
  2 <= len rows ->
  exists u W,
    Universe.__init__ layout_str N = inr u /\
    rect (len rows) W rows /\
    Universe.width u = len rows /\
    Universe.height u = W /\
    Universe.shape u = (len rows, W) /\
    rect (len rows) W (Universe.layout u) /\
    rect (len rows) W (Universe.food_positions u) /\
    len (Universe.initial_pos u) = Z.max 0 N /\
    (forall i, 0 <= i < N ->
       exists h w c,
         py_getitem (Universe.initial_pos u) i = inr (h, w) /\
         0 <= h < len rows /\ 0 <= w < W /\
         grid_get rows h w = inr c /\ chr1 c = str i /\
         grid_get (Universe.layout u) h w = inr free) /\
    (forall h w c, 0 <= h < len rows -> 0 <= w < W ->
       grid_get rows h w = inr c ->
       exists x,
         grid_get (Universe.layout u) h w = inr x /\
         x = clear_food (clear_marker (bot_ids_of N) c) /\
         (x = wall \/ x = free \/ x = harvester \/ x = destroyer) /\
         grid_get (Universe.food_positions u) h w
           = inr (bool_decide (c = food))).
Proof.
  intros rows Hck Hlen.
  set (s := strip_layout layout_str) in *.
  destruct (checked_rows s N Hck Hlen) as (W & Hrect & Hfind & HW).
  fold rows in Hrect.
  destruct (initial_positions_spec rows (len rows) W N Hrect)
    as (g & start & Hinit & Hg & Hstart & Hcells & Hpos).
  cbn [fst snd] in Hg, Hstart, Hcells, Hpos.
  destruct (extract_food_spec g (len rows) W Hg HW)
    as (g' & fg & Hfood & Hg' & Hfg & Hfcells).
  cbn [fst snd] in Hg', Hfg, Hfcells.
  assert (Hfinal : forall h w c, 0 <= h < len rows -> 0 <= w < W ->
            grid_get rows h w = inr c ->
            grid_get g' h w = inr (clear_food (clear_marker (bot_ids_of N) c)) /\
            grid_get fg h w = inr (bool_decide (c = food))).
  { intros h w c Hh Hw Hc.
    pose proof (Hcells h w c Hh Hw Hc) as Hc1.
    rewrite decide_True in Hc1 by by apply elem_of_coords.
    destruct (Hfcells h w _ Hh Hw Hc1) as [Hc2 Hf2].
    rewrite decide_True in Hc2 by by apply elem_of_coords.
    rewrite decide_True in Hf2 by by apply elem_of_coords.
    split; [done|]. rewrite Hf2. f_equal. apply bool_decide_ext.
    unfold clear_marker. destruct (decide _) as [Hm|]; [|done].
    split; [done|]. intros ->. by apply food_not_marker in Hm. }
  eexists _, W. split.
  { subst rows s. unfold Universe.__init__. rewrite Hck. py_simpl.
    unfold layout_shape. rewrite Hfind.
    rewrite convert_to_grid_strip_layout.
    rewrite Hinit. py_simpl. rewrite Hfood. py_simpl. done. }
  cbn. do 7 (split; [done|]). split.
  - intros i Hi.
    destruct (checked_marker_cell s N (len rows) W i Hck Hrect Hi)
      as (h0 & w0 & c0 & Hh0 & Hw0 & Hc0 & Hs0).
    destruct (Hpos i h0 w0 c0 Hi) as (h & w & c & Hlk & Hh & Hw & Hc & Hs);
      [by apply elem_of_coords|done..|].
    exists h, w, c. rewrite (py_getitem_lookup _ i (h, w)) by (lia || done).
    do 5 (split; [done|]).
    destruct (Hfinal h w c Hh Hw Hc) as [-> _]. f_equal.
    unfold clear_marker. rewrite decide_True by (apply elem_of_bot_ids; eauto).
    done.
  - intros h w c Hh Hw Hc. destruct (Hfinal h w c Hh Hw Hc) as [Hx Hf].
    eexists. repeat split; [done| |done].
    pose proof (checked_cell_legal s N h w c Hck ltac:(lia) ltac:(lia) Hc)
      as Hlegal.
    unfold clear_marker.
    destruct (decide (chr1 c ∈ bot_ids_of N)) as [|Hnm]; [by right; left|].
    rewrite <-is_marker_bot_ids in Hnm.
    destruct Hlegal as [->|[->|[->|[->|[->|?]]]]]; try done; vm_compute; tauto.
Qed.

(** The theorem applies to the two-by-three layout with one bot. *)
Lemma Universe_init_rows_two_by_three :
  exists u W,
    Universe.__init__ two_by_three 1 = inr u /\
    Universe.width u = 2 /\
    Universe.height u = W /\
    len (Universe.initial_pos u) = 1.
Proof.
  pose proof (Universe_init_rows two_by_three 1) as Hinit.
  cbv zeta in Hinit.
  destruct Hinit as (u & W & Hu & _ & Hw & Hh & _ & _ & _ & Hn & _);
    [by vm_compute..|].
  exists u, W. by repeat split.
Qed.

(** ** The Universe constructor on concrete layouts *)

(** C7 as stated fails: on the scenario layout with 4 bots,
    [initial_positions] does not put bot 1 at (15, 2). *)
Lemma scenario_bot_1_not_at_15_2 :
  ~ (exists g start,
       initial_positions (convert_to_grid scenario_layout)
                         (layout_shape scenario_layout) 4 = inr (g, start) /\
       py_getitem start 1 = inr (15, 2)).
Proof.
  intros (g & start & Hinit & Hpos). vm_compute in Hinit.
  injection Hinit as <- <-. by vm_compute in Hpos.
Qed.

(** C7 (as amended): on the scenario layout with 4 bots,
    [initial_positions] puts bot 1 at (2, 15), row 2 and column 15;
    the west move applied to (15, 2) yields (15, 1) and the north move
    applied to (15, 1) yields (14, 1). *)
Theorem scenario_bot_1_position_and_moves :
  (exists g start,
     initial_positions (convert_to_grid scenario_layout)
                       (layout_shape scenario_layout) 4 = inr (g, start) /\
     py_getitem start 1 = inr (2, 15)) /\
  new_positions (15, 2) !! west = Some (15, 1) /\
  new_positions (15, 1) !! north = Some (14, 1).
Proof.
  split; [|split; by vm_compute].
  eexists _, _. split; [by vm_compute|]. by vm_compute.
Qed.

(** C6: on a valid layout of two rows and three columns the constructor
    sets [width] to 2, the number of rows, and [height] to 3, the number of
    columns, against the attribute documentation of the class. *)
Theorem Universe_width_height_swapped :
  exists u,
    Universe.__init__ two_by_three 1 = inr u /\
    len (Universe.layout u) = 2 /\
    Forall (fun row => len row = 3) (Universe.layout u) /\
    Universe.width u = 2 /\
    Universe.height u = 3 /\
    Universe.shape u = (2, 3).
Proof.
  eexists. split; [by vm_compute|]. cbn. repeat split; compute_done.
Qed.

(** C2: the one-row layout ["#0 1#"] is accepted for two bots, but the
    constructor reports both bots at (0, 0), a wall cell, while their
    markers stay in the stored grid at (0, 1) and (0, 3). *)
Theorem Universe_single_row_initial_pos :
  exists u,
    check_layout (strip_layout two_bot_row) 2 = inr tt /\
    Universe.__init__ two_bot_row 2 = inr u /\
    Universe.initial_pos u = [(0, 0); (0, 0)] /\
    Universe.layout u = [text "#0 1#"] /\
    grid_get (Universe.layout u) 0 0 = inr wall.
Proof.
  eexists. split; [by vm_compute|]. split; [by vm_compute|].
  repeat split; by vm_compute.
Qed.

(** C3: on the accepted one-row layout ["#0.1#"] nothing is extracted: the
    stored grid keeps the bot markers and the food character and
    [food_positions] has no cell at all; on the accepted two-row layout
    ["#0c" / "#1."] the harvester character stays in the stored grid. *)
Theorem Universe_layout_not_only_wall_and_free :
  (exists u,
     check_layout (strip_layout single_row) 2 = inr tt /\
     Universe.__init__ single_row 2 = inr u /\
     Universe.layout u = [text "#0.1#"] /\
     Universe.food_positions u = [[]]) /\
  (exists u,
     check_layout (strip_layout harvester_grid) 2 = inr tt /\
     Universe.__init__ harvester_grid 2 = inr u /\
     Universe.layout u = [text "# c"; text "#  "] /\
     Universe.food_positions u = [[false; false; false]; [false; false; true]]).
Proof.
  split; eexists; (split; [by vm_compute|]); (split; [by vm_compute|]);
    split; by vm_compute.
Qed.

(* ================================================================= *)
(** * Further properties of the module *)

(** ** strip_layout, convert_to_grid and layout_shape *)

Lemma strip_head_last (l : list ascii) :
  (forall c, head (strip l) = Some c -> isspace c = false) /\
  (forall c, last (strip l) = Some c -> isspace c = false).
Proof.
  unfold strip. split; intros c.
  - destruct (lstrip_head l) as [->|(a & l' & -> & Ha)]; [done|].
    rewrite rstrip_cons by done. by intros [= <-].
  - unfold rstrip. rewrite last_reverse.
    destruct (lstrip_head (reverse (lstrip l))) as [->|(a & l' & -> & Ha)];
      [done|].
    by intros [= <-].
Qed.

Lemma strip_layout_idemp (layout_str : list ascii) :
  strip_layout (strip_layout layout_str) = strip_layout layout_str.
Proof.
  unfold strip_layout at 1. rewrite split_strip_layout.
  rewrite <-list_fmap_compose. unfold strip_layout. f_equal.
  apply list_fmap_ext. intros _ l _. apply strip_idemp.
Qed.

Lemma length_split (sep : ascii) (s : list ascii) :
  List.length (split sep s) = S (List.length (filter (fun c => c = sep) s)).
Proof.
  induction s as [|c s IH]; [done|]. cbn [split].
  destruct (decide (c = sep)) as [->|Hne].
  - rewrite filter_cons_True by done. cbn. by rewrite IH.
  - rewrite filter_cons_False by done.
    destruct (split sep s) as [|l ls]; [done|]. by rewrite <-IH.
Qed.

Lemma join_split (sep : ascii) (s : list ascii) :
  join [sep] (split sep s) = s.
Proof.
  induction s as [|c s IH]; [done|]. cbn [split].
  destruct (split_nonempty sep s) as (l0 & rest & Hs). rewrite Hs in *.
  destruct (decide (c = sep)) as [->|Hne].
  - change (join [sep] ([] :: l0 :: rest))
      with ([] ++ [sep] ++ join [sep] (l0 :: rest)).
    by rewrite IH.
  - rewrite <-IH. by destruct rest.
Qed.

(** X1: the lines of [strip_layout(s)] are the lines of [s], each one
    stripped: the text keeps its number of lines, and no line of the result
    starts or ends with a whitespace character. *)
Theorem strip_layout_lines (layout_str : list ascii) :
  split newline (strip_layout layout_str)
    = strip <$> split newline layout_str /\
  len (split newline (strip_layout layout_str))
    = len (split newline layout_str) /\
  (forall l c, l ∈ split newline (strip_layout layout_str) ->
     head l = Some c \/ last l = Some c -> isspace c = false).
Proof.
  rewrite split_strip_layout. split; [done|]. split.
  - unfold len. by rewrite length_fmap.
  - intros l c (l' & -> & _)%list_elem_of_fmap.
    destruct (strip_head_last l') as [Hh Hl].
    intros [Hc|Hc]; [by apply Hh|by apply Hl].
Qed.

(** X2: [strip_layout] is idempotent, so the constructor builds the same
    universe from a layout and from its stripped form. *)
Theorem strip_layout_idempotent (layout_str : list ascii) (number_bots : Z) :
  strip_layout (strip_layout layout_str) = strip_layout layout_str /\
  Universe.__init__ (strip_layout layout_str) number_bots
    = Universe.__init__ layout_str number_bots.
Proof.
  split; [apply strip_layout_idemp|].
  unfold Universe.__init__. by rewrite strip_layout_idemp.
Qed.

(** X3: [convert_to_grid] gives one row per line of the text, that is one
    more than the text has newline characters, and it gives the same grid
    for a layout and for its stripped form. *)
Theorem convert_to_grid_rows (layout_str : list ascii) :
  List.length (convert_to_grid layout_str)
    = S (List.length (filter (fun c => c = newline) layout_str)) /\
  convert_to_grid (strip_layout layout_str) = convert_to_grid layout_str.
Proof.
  split.
  - unfold convert_to_grid. by rewrite length_fmap, length_split.
  - rewrite convert_to_grid_strip_layout, split_strip_layout. done.
Qed.

(** X4: [layout_shape] returns as height the number of lines, at least 1,
    which is the number of rows of [convert_to_grid]; as width it returns
    -1 when the text has no newline, and otherwise the length of the text
    before the first newline. *)
Theorem layout_shape_height_width (layout_str : list ascii) :
  (layout_shape layout_str).1 = len (convert_to_grid layout_str) /\
  1 <= (layout_shape layout_str).1 /\
  ((newline ∉ layout_str) /\ (layout_shape layout_str).2 = -1 \/
   exists l0 rest,
     layout_str = l0 ++ (newline :: rest) /\ (newline ∉ l0) /\
     (layout_shape layout_str).2 = len l0).
Proof.
  unfold layout_shape, convert_to_grid. cbn [fst snd].
  destruct (split_nonempty newline layout_str) as (l0 & rest & Hs).
  pose proof (find_from_split newline layout_str 0 l0 rest Hs) as Hfind.
  pose proof (split_rows_no_sep newline layout_str) as Hno.
  pose proof (join_split newline layout_str) as Hjoin.
  rewrite Hs in *. apply Forall_cons in Hno as [Hl0 _].
  split; [unfold len; by rewrite length_fmap|].
  split; [unfold len; cbn; lia|].
  unfold find. rewrite Hfind. destruct rest as [|l1 rest].
  - left. cbn in Hjoin. by subst.
  - right. exists l0, (join [newline] (l1 :: rest)).
    split; [by rewrite <-Hjoin|]. split; [done|lia].
Qed.

(** ** new_positions *)

(** X5: the keys of [new_positions p] are the members of [move_ids];
    STOP leaves the position where it is, and the four other moves lead to
    four different positions, each one step away from [p] along one
    coordinate. *)
Theorem new_positions_moves (p : Z * Z) (move : string) :
  (is_Some (new_positions p !! move) <-> move ∈ move_ids) /\
  (forall q, new_positions p !! move = Some q ->
     Z.abs (q.1 - p.1) + Z.abs (q.2 - p.2) = (if decide (move = stop) then 0 else 1)) /\
  (forall move' q, new_positions p !! move = Some q ->
     new_positions p !! move' = Some q -> move = move').
Proof.
  destruct p as [r c]. unfold new_positions, move_ids. cbn [fst snd].
  rewrite !lookup_insert_is_Some, lookup_empty, !elem_of_cons, elem_of_nil.
  split.
  - unfold is_Some. split.
    + intros [->|[_ [->|[_ [->|[_ [->|[_ [->|[_ [? ?]]]]]]]]]]]; [tauto..|done].
    + intros [->|[->|[->|[->|[->|[]]]]]];
        repeat (first [by left | right; split; [done|]]).
  - split.
    + intros q Hq.
      destruct (decide (move = stop)) as [->|Hs];
        [rewrite lookup_insert_eq in Hq; injection Hq as <-; cbn; lia|].
      rewrite lookup_insert_ne in Hq by done.
      destruct (decide (move = east)) as [->|He];
        [rewrite lookup_insert_eq in Hq; injection Hq as <-; cbn; lia|].
      rewrite lookup_insert_ne in Hq by done.
      destruct (decide (move = west)) as [->|Hw];
        [rewrite lookup_insert_eq in Hq; injection Hq as <-; cbn; lia|].
      rewrite lookup_insert_ne in Hq by done.
      destruct (decide (move = south)) as [->|Hso];
        [rewrite lookup_insert_eq in Hq; injection Hq as <-; cbn; lia|].
      rewrite lookup_insert_ne in Hq by done.
      destruct (decide (move = north)) as [->|Hn];
        [rewrite lookup_insert_eq in Hq; injection Hq as <-; cbn; lia|].
      by rewrite lookup_insert_ne in Hq by done.
    + intros move' q Hq Hq'.
      repeat (rewrite lookup_insert in Hq; case_decide; simplify_eq/=);
      repeat (rewrite lookup_insert in Hq'; case_decide; simplify_eq/=);
      try done; lia.
Qed.

(** X6: opposite moves cancel: going north and then south, south and then
    north, west and then east, or east and then west from [p] ends at [p]. *)
Theorem new_positions_opposite_moves (p : Z * Z) (move back : string) :
  (move, back) ∈ [(north, south); (south, north); (west, east); (east, west);
                  (stop, stop)] ->
  exists q, new_positions p !! move = Some q /\
            new_positions q !! back = Some p.
Proof.
  destruct p as [r c]. rewrite !elem_of_cons, elem_of_nil.
  intros [[= -> ->]|[[= -> ->]|[[= -> ->]|[[= -> ->]|[[= -> ->]|[]]]]]];
    eexists; (split; [unfold new_positions; by simplify_map_eq|]);
    unfold new_positions; cbn [fst snd]; simplify_map_eq;
    try (apply (f_equal Some), injective_projections; cbn; lia).
Qed.

Lemma new_positions_opposite_moves_witness :
  exists q, new_positions (15, 2) !! west = Some q /\
            new_positions q !! east = Some (15, 2).
Proof.
  apply (new_positions_opposite_moves (15, 2) west east).
  rewrite !elem_of_cons. right. right. left. reflexivity.
Defined.

(** ** Mesh: construction, iteration, printing *)

Section Mesh_more.
Context {A : Type}.
Implicit Types (m : Mesh.t A) (item : option A).

Lemma Mesh_getitem_data h w m r c :
  Mesh.constructed h w m -> 0 <= r < h -> 0 <= c < w ->
  Mesh.__getitem__ m (r, c) =
    match Mesh._data m !! Z.to_nat (r * w + c) with
    | Some x => inr x
    | None => inl IndexError
    end.
Proof.
  intros Hm Hr Hc.
  destruct (Mesh_constructed_inv _ _ _ Hm) as (Hh & Hw & _ & _).
  unfold Mesh.__getitem__, bind.
  assert (Mesh._check_index m (r, c) = inr tt) as ->.
  { apply Mesh_check_index_ok. rewrite Hh, Hw. by split. }
  cbn [fst snd]. rewrite Hw. apply py_getitem_nonneg. nia.
Qed.

Lemma Mesh_setitem_data h w m r c item :
  Mesh.constructed h w m -> 0 <= r < h -> 0 <= c < w ->
  Mesh.__setitem__ m (r, c) item =
    inr (Mesh.mk h w (h, w)
           (<[Z.to_nat (r * w + c) := item]> (Mesh._data m))).
Proof.
  intros Hm Hr Hc.
  destruct (Mesh_constructed_inv _ _ _ Hm) as (Hh & Hw & Hs & Hlen).
  pose proof (Mesh_offset_in_range h w r c Hr Hc).
  unfold Mesh.__setitem__, bind.
  assert (Mesh._check_index m (r, c) = inr tt) as ->.
  { apply Mesh_check_index_ok. rewrite Hh, Hw. by split. }
  cbn [fst snd]. rewrite Hh, Hw, Hs, py_setitem_nonneg by lia. done.
Qed.

Lemma Mesh_constructed_eta h w m :
  Mesh.constructed h w m -> m = Mesh.mk h w (h, w) (Mesh._data m).
Proof.
  intros Hm. destruct (Mesh_constructed_inv _ _ _ Hm) as (Hh & Hw & Hs & _).
  destruct m; cbn in *. by subst.
Qed.
End Mesh_more.

(** X7: a mesh just built holds [None] in every cell: reading any
    in-bounds index of [Mesh(h, w)] returns [None]. *)
Theorem Mesh_init_all_None {A} (h w : Z) (index : Z * Z) :
  Mesh.in_bounds h w index ->
  Mesh.__getitem__ (Mesh.__init__ (A:=A) h w) index = inr None.
Proof.
  destruct index as [r c]. intros [Hr Hc]. cbn [fst snd] in Hr, Hc.
  rewrite (Mesh_getitem_data h w) by (done || apply Mesh.constructed_init).
  pose proof (Mesh_offset_in_range h w r c Hr Hc).
  cbn. unfold range. rewrite list_lookup_fmap, lookup_seqZ_lt by lia. done.
Qed.

Lemma Mesh_init_all_None_witness :
  Mesh.__getitem__ (Mesh.__init__ (A:=bool) 2 3) (1, 2) = inr None.
Proof.
  apply (Mesh_init_all_None 2 3 (1, 2)). unfold Mesh.in_bounds. cbn. lia.
Defined.

(** X8: iterating over a mesh yields [max 0 (height * width)] items, and
    for a positive width the [k]-th item is the cell in row [k // width]
    and column [k % width]: the cells come row by row. *)
Theorem Mesh_iter_row_major {A} (h w : Z) (m : Mesh.t A) :
  Mesh.constructed h w m ->
  len (Mesh.__iter__ m) = Z.max 0 (Mesh.__len__ m) /\
  (forall k, 0 < w -> 0 <= k < h * w ->
     py_getitem (Mesh.__iter__ m) k = Mesh.__getitem__ m (k / w, k mod w)).
Proof.
  intros Hm. destruct (Mesh_constructed_inv _ _ _ Hm) as (Hh & Hw & _ & Hlen).
  unfold Mesh.__iter__, Mesh.__len__. rewrite Hh, Hw. split.
  - rewrite Hlen. f_equal. lia.
  - intros k Hwpos Hk.
    pose proof (Z.mod_pos_bound k w Hwpos) as Hmod.
    pose proof (Z.div_mod k w ltac:(lia)) as Hdm.
    assert (0 <= k / w < h) as Hdiv.
    { split; [apply Z.div_pos; lia|].
      apply Z.div_lt_upper_bound; lia. }
    rewrite (Mesh_getitem_data h w) by done.
    rewrite py_getitem_nonneg by lia.
    by replace (k / w * w + k mod w) with k by lia.
Qed.

Lemma Mesh_iter_row_major_witness :
  len (Mesh.__iter__ docstring_mesh) = Z.max 0 (Mesh.__len__ docstring_mesh) /\
  (forall k, 0 < 3 -> 0 <= k < 2 * 3 ->
     py_getitem (Mesh.__iter__ docstring_mesh) k
       = Mesh.__getitem__ docstring_mesh (k / 3, k mod 3)).
Proof.
  apply (Mesh_iter_row_major 2 3 docstring_mesh). apply Mesh.constructed_init.
Defined.

(** X9: item assignments compose as on a matrix: a second assignment to the
    same index overwrites the first, assignments to different indices can
    be swapped, and assigning to a cell the value read from it leaves the
    mesh as it is. *)
Theorem Mesh_setitem_compose {A} (h w : Z) (m : Mesh.t A) (i j : Z * Z)
    (a b : option A) :
  Mesh.constructed h w m ->
  Mesh.in_bounds h w i -> Mesh.in_bounds h w j ->
  exists mi mj mij x,
    Mesh.__setitem__ m i a = inr mi /\
    Mesh.__setitem__ m j b = inr mj /\
    Mesh.__setitem__ mi j b = inr mij /\
    (i = j -> mij = mj) /\
    (i <> j -> Mesh.__setitem__ mj i a = inr mij) /\
    Mesh.__getitem__ m i = inr x /\
    Mesh.__setitem__ m i x = inr m.
Proof.
  destruct i as [r c], j as [r' c'].
  intros Hm [Hr Hc] [Hr' Hc']. cbn [fst snd] in *.
  pose proof (Mesh_setitem_data h w m r c a Hm Hr Hc) as Hi.
  pose proof (Mesh_setitem_data h w m r' c' b Hm Hr' Hc') as Hj.
  assert (Mesh.constructed h w
            (Mesh.mk h w (h, w) (<[Z.to_nat (r * w + c) := a]> (Mesh._data m))))
    as Hmi by (eapply Mesh.constructed_set; [exact Hm|exact Hi]).
  assert (Mesh.constructed h w
            (Mesh.mk h w (h, w) (<[Z.to_nat (r' * w + c') := b]> (Mesh._data m))))
    as Hmj by (eapply Mesh.constructed_set; [exact Hm|exact Hj]).
  destruct (Mesh_constructed_inv _ _ _ Hm) as (_ & _ & _ & Hlen).
  pose proof (Mesh_offset_in_range h w r c Hr Hc) as Hoff.
  destruct (lookup_lt_is_Some_2 (Mesh._data m) (Z.to_nat (r * w + c)))
    as [x Hx]; [unfold len in Hlen; lia|].
  eexists _, _, _, x.
  split; [done|]. split; [done|].
  split; [by apply Mesh_setitem_data|]. cbn [Mesh._data].
  split; [|split; [|split]].
  - intros [= <- <-]. by rewrite list_insert_insert_eq.
  - intros Hne. rewrite (Mesh_setitem_data h w) by done. cbn [Mesh._data].
    do 2 f_equal. apply list_insert_insert_ne.
    intros Heq. apply Hne.
    pose proof (Mesh_offset_in_range h w r' c' Hr' Hc') as Hoff'.
    destruct (Mesh_offset_inj w r c r' c') as [-> ->]; [lia..|done].
  - rewrite (Mesh_getitem_data h w) by done. by rewrite Hx.
  - rewrite (Mesh_setitem_data h w) by done.
    rewrite list_insert_id by done. f_equal. symmetry.
    by apply Mesh_constructed_eta.
Qed.

Lemma Mesh_setitem_compose_witness :
  exists mi mj mij x,
    Mesh.__setitem__ docstring_mesh (0, 1) (Some true) = inr mi /\
    Mesh.__setitem__ docstring_mesh (1, 2) (Some false) = inr mj /\
    Mesh.__setitem__ mi (1, 2) (Some false) = inr mij /\
    ((0, 1) = (1, 2) -> mij = mj) /\
    ((0, 1) <> (1, 2) -> Mesh.__setitem__ mj (0, 1) (Some true) = inr mij) /\
    Mesh.__getitem__ docstring_mesh (0, 1) = inr x /\
    Mesh.__setitem__ docstring_mesh (0, 1) x = inr docstring_mesh.
Proof.
  apply (Mesh_setitem_compose 2 3 docstring_mesh (0, 1) (1, 2)
           (Some true) (Some false)).
  - apply Mesh.constructed_init.
  - unfold Mesh.in_bounds. cbn. lia.
  - unfold Mesh.in_bounds. cbn. lia.
Defined.

Lemma foldl_append_lines {B} (g : B -> list ascii) (l : list B)
    (acc : list ascii) :
  foldl (fun output i => (output ++ g i) ++ ["010"%char]) acc l
    = acc ++ mjoin ((fun i => g i ++ ["010"%char]) <$> l).
Proof.
  revert acc. induction l as [|i l IH]; intros acc; cbn.
  - by rewrite app_nil_r.
  - rewrite IH. by rewrite <-!app_assoc.
Qed.

Lemma py_slice_row {B} (data : list B) (h w r : Z) :
  len data = Z.max 0 (w * h) -> 0 <= r < h ->
  len (py_slice data (r * w) (r * w + w)) = Z.max 0 w /\
  (forall c, 0 <= c < w ->
     py_slice data (r * w) (r * w + w) !! Z.to_nat c
       = data !! Z.to_nat (r * w + c)).
Proof.
  intros Hlen Hr. unfold py_slice, py_slice_bound.
  destruct (decide (0 <= w)) as [Hw|Hw].
  - assert (0 <= r * w /\ r * w + w <= w * h) as [H1 H2] by nia.
    rewrite Hlen.
    repeat (case_decide; try lia).
    all: split;
      [unfold len in *; rewrite length_take, length_drop; lia|].
    all: intros c Hc; rewrite lookup_take_lt by lia;
      rewrite lookup_drop; f_equal; lia.
  - assert (data = []) as ->.
    { destruct data; [done|]. unfold len in Hlen. cbn in Hlen. nia. }
    split; [|intros c Hc; lia].
    rewrite drop_nil, take_nil. unfold len. cbn. lia.
Qed.

(** X10: printing a mesh gives one line per row, each ended by a newline:
    the text is the concatenation, over the rows [0 .. height - 1], of the
    printed list of the row's cells in column order. *)
Theorem Mesh_str_rows {A} (h w : Z) (m : Mesh.t A)
    (str_of_list : list (option A) -> list ascii) :
  Mesh.constructed h w m ->
  exists rows : list (list (option A)),
    len rows = Z.max 0 h /\
    Forall (fun row => len row = Z.max 0 w) rows /\
    (forall r c, 0 <= r < h -> 0 <= c < w ->
       exists row x, rows !! Z.to_nat r = Some row /\
                     row !! Z.to_nat c = Some x /\
                     Mesh.__getitem__ m (r, c) = inr x) /\
    Mesh.__str__ str_of_list m
      = mjoin ((fun row => str_of_list row ++ [newline]) <$> rows).
Proof.
  intros Hm. destruct (Mesh_constructed_inv _ _ _ Hm) as (Hh & Hw & _ & Hlen).
  exists ((fun r => py_slice (Mesh._data m) (r * w) (r * w + w)) <$> range h).
  split; [|split; [|split]].
  - unfold len, range. rewrite length_fmap, length_seqZ. lia.
  - apply Forall_fmap, Forall_forall. intros r Hrange%elem_of_seqZ. cbn.
    by apply (py_slice_row _ h w r).
  - intros r c Hr Hc. unfold range.
    rewrite list_lookup_fmap, lookup_seqZ_lt by lia. cbn.
    replace (0 + Z.of_nat (Z.to_nat r)) with r by lia.
    destruct (py_slice_row (Mesh._data m) h w r Hlen Hr) as [_ Hcell].
    pose proof (Mesh_offset_in_range h w r c Hr Hc) as Hoff.
    destruct (lookup_lt_is_Some_2 (Mesh._data m) (Z.to_nat (r * w + c)))
      as [x Hx]; [unfold len in Hlen; lia|].
    eexists _, x. split; [done|]. rewrite Hcell, Hx by done. split; [done|].
    rewrite (Mesh_getitem_data h w) by done. by rewrite Hx.
  - unfold Mesh.__str__. rewrite Hh, Hw.
    rewrite (foldl_append_lines
               (fun i => str_of_list (py_slice (Mesh._data m) (i * w) (i * w + w)))).
    cbn [app]. by rewrite <-list_fmap_compose.
Qed.

Lemma Mesh_str_rows_witness :
  exists rows : list (list (option bool)),
    len rows = Z.max 0 2 /\
    Forall (fun row => len row = Z.max 0 3) rows /\
    (forall r c, 0 <= r < 2 -> 0 <= c < 3 ->
       exists row x, rows !! Z.to_nat r = Some row /\
                     row !! Z.to_nat c = Some x /\
                     Mesh.__getitem__ docstring_mesh (r, c) = inr x) /\
    Mesh.__str__ (fun _ => text "[...]") docstring_mesh
      = mjoin ((fun row => text "[...]" ++ [newline]) <$> rows).
Proof.
  apply (Mesh_str_rows 2 3 docstring_mesh). apply Mesh.constructed_init.
Defined.

(** ** check_layout: what is accepted and what the exceptions report *)

Lemma layout_accepted_ascending (s : list ascii) (N : Z) :
  layout_accepted s N -> markers_ascending s N.
Proof.
  intros (_ & Hm & _).
  rewrite markers_of_marker_ids in Hm. unfold bot_ids_of, range in Hm.
  assert (Inj (=) (=) str) as Hinj by (intros ???; by apply str_inj).
  apply (inj (fmap str)) in Hm.
  assert (StronglySorted Z.lt (omap (marker_id N) s)) as Hsorted.
  { rewrite Hm. destruct (decide (0 <= N)).
    - replace N with (Z.of_nat (Z.to_nat N)) by lia. apply StronglySorted_seqZ.
    - rewrite seqZ_nil by lia. constructor. }
  clear Hm. intros p q cp cq i j Hpq Hp Hq Hi Hj Hsi Hsj.
  assert (marker_id N cp = Some i) as Hidp by by apply marker_id_Some.
  assert (marker_id N cq = Some j) as Hidq by by apply marker_id_Some.
  rewrite <-(take_drop_middle s p cp Hp) in Hsorted, Hq.
  rewrite lookup_app_r in Hq by (rewrite length_take; lia).
  rewrite length_take_le in Hq by (apply lookup_lt_Some in Hp; lia).
  destruct (q - p)%nat as [|k] eqn:Hk; [lia|]. cbn in Hq.
  apply list_elem_of_lookup_2 in Hq.
  rewrite omap_app in Hsorted. cbn [omap list_omap] in Hsorted.
  rewrite Hidp in Hsorted.
  apply StronglySorted_app_1_r, StronglySorted_cons in Hsorted as [Hall _].
  rewrite Forall_forall in Hall. apply Hall.
  apply list_elem_of_omap. eauto.
Qed.

(** X11: [check_layout] returns without raising exactly for the texts in
    which every character is one of [layout_chars], a newline or a bot
    marker, every marker 0..N-1 occurs once, all rows are as long as the
    first, and the markers occur in the order of their ids. *)
Theorem check_layout_returns_iff (layout_str : list ascii) (number_bots : Z) :
  check_layout layout_str number_bots = inr tt <->
  ~ layout_error_cond layout_str number_bots /\
  markers_ascending layout_str number_bots.
Proof.
  pose proof (check_layout_spec layout_str number_bots) as Hspec.
  split.
  - intros Hck. rewrite Hck in Hspec. split.
    + by apply layout_accepted_no_error.
    + by apply layout_accepted_ascending.
  - intros [Hno Hasc]. destruct (check_layout _ _) as [e|[]]; [|done].
    destruct Hspec as [_ Hn]. exfalso.
    by apply Hn, no_error_layout_accepted.
Qed.

Lemma check_layout_more_than_ten_bots_witness :
  raises_layout_error (check_layout two_bot_row 11).
Proof.
  apply (check_layout_more_than_ten_bots two_bot_row 11). lia.
Defined.






#[local] Instance str_le_total : Total str_le.
Proof. intros a b. apply String.leb_total. Qed.



(** ** initial_positions and extract_food as functions of any grid *)

Lemma initial_positions_default_step (g0 : list (list ascii)) (H W N : Z)
    (done : list (Z * Z)) (h w : Z) st st' :
  rect H W g0 -> 0 <= h < H -> 0 <= w < W ->
  initial_positions_inv g0 H W N done st ->
  initial_positions_default_inv g0 H W N done st ->
  initial_positions_body (bot_ids_of N) st (h, w) = inr st' ->
  initial_positions_default_inv g0 H W N (done ++ [(h, w)]) st'.
Proof.
  intros Hg0 Hh Hw (Hg & Hlen & Hcells & _) Hdef Hbody.
  destruct st as [g start]. cbn [fst snd] in *.
  destruct (grid_get_rect H W g0 h w Hg0 Hh Hw) as [c0 Hc0].
  pose proof (Hcells h w c0 Hh Hw Hc0) as Hcur.
  unfold initial_positions_body in Hbody. rewrite Hcur in Hbody.
  cbn [bind raise ret for_each] in Hbody.
  assert (Hkeep : forall i, 0 <= i < N ->
            (forall h1 w1 c, (h1, w1) ∈ done ++ [(h, w)] ->
               0 <= h1 < H -> 0 <= w1 < W ->
               grid_get g0 h1 w1 = inr c -> chr1 c <> str i) ->
            start !! Z.to_nat i = Some (0, 0)).
  { intros i Hi Hnone. apply Hdef; [done|].
    intros h1 w1 c Hin. apply Hnone. apply elem_of_app. by left. }
  destruct (decide (chr1 _ ∈ bot_ids_of N)) as [Hm|Hnm].
  - assert ((if decide ((h, w) ∈ done)
             then clear_marker (bot_ids_of N) c0 else c0) = c0) as Hcc.
    { destruct (decide ((h, w) ∈ done)); [|done].
      by apply clear_marker_not_marker in Hm. }
    rewrite Hcc in *. clear Hcc.
    destruct (marker_int N c0 Hm) as (i0 & Hi0 & Hs0 & Hint).
    rewrite Hint in Hbody. cbn [bind raise ret for_each] in Hbody.
    rewrite py_setitem_nonneg in Hbody by lia. cbn [bind raise ret for_each] in Hbody.
    destruct (grid_set_rect H W g h w " "%char Hg Hh Hw)
      as (g' & Hset & _).
    rewrite Hset in Hbody. cbn [bind raise ret for_each] in Hbody. injection Hbody as <-.
    intros i Hi Hnone. cbn [snd].
    rewrite list_lookup_insert_ne; [by apply Hkeep|].
    intros Heq. apply (Hnone h w c0); [apply elem_of_snoc_eq|done..|].
    rewrite Hs0. f_equal. lia.
  - injection Hbody as <-. intros i Hi Hnone. by apply Hkeep.
Qed.

Lemma initial_positions_full_spec (g0 : list (list ascii)) (H W N : Z) :
  rect H W g0 ->
  exists g start,
    initial_positions g0 (H, W) N = inr (g, start) /\
    initial_positions_inv g0 H W N (coords H W) (g, start) /\
    initial_positions_default_inv g0 H W N (coords H W) (g, start).
Proof.
  intros Hg0. unfold initial_positions. cbn [fst snd].
  destruct (for_each_inv (initial_positions_body (bot_ids_of N))
              (fun done st => initial_positions_inv g0 H W N done st /\
                              initial_positions_default_inv g0 H W N done st)
              (coords H W))
    with (rest := coords H W) (done := @nil (Z * Z))
         (s := (g0, replicate (Z.to_nat N) (0, 0)))
    as ([g start] & Hrun & Hinv & Hdef).
  - intros done [h w] rest st Hall [Hinv Hdef].
    assert ((h, w) ∈ coords H W) as [Hh Hw]%elem_of_coords
      by (rewrite Hall; set_solver).
    destruct (initial_positions_step g0 H W N done h w st Hg0 Hh Hw Hinv)
      as (st' & Hbody & Hinv').
    exists st'. split; [done|]. split; [done|].
    by eapply initial_positions_default_step.
  - done.
  - split.
    + split; [done|]. cbn [fst snd]. split; [|split].
      * unfold len. rewrite length_replicate. lia.
      * intros h w c _ _ Hc. rewrite Hc. by rewrite decide_False by set_solver.
      * intros i h w c _ Hin. by apply elem_of_nil in Hin.
    + intros i Hi _. cbn [snd]. apply lookup_replicate_2. lia.
  - by exists g, start.
Qed.

(** X13: [initial_positions] called on a rectangular grid with its shape
    returns, with one position per bot.  Afterwards every cell that held a
    bot marker holds the free character and every other cell is unchanged.
    A bot whose marker is in the grid gets a cell that held it; a bot whose
    marker is nowhere in the grid silently gets (0, 0). *)
Theorem initial_positions_contract (g0 : list (list ascii)) (H W N : Z) :
  rect H W g0 ->
  exists g start,
    initial_positions g0 (H, W) N = inr (g, start) /\
    rect H W g /\
    len start = Z.max 0 N /\
    (forall h w c, 0 <= h < H -> 0 <= w < W -> grid_get g0 h w = inr c ->
       grid_get g h w = inr (clear_marker (bot_ids_of N) c)) /\
    (forall i h w c, 0 <= i < N -> 0 <= h < H -> 0 <= w < W ->
       grid_get g0 h w = inr c -> chr1 c = str i ->
       exists h' w' c',
         py_getitem start i = inr (h', w') /\
         0 <= h' < H /\ 0 <= w' < W /\
         grid_get g0 h' w' = inr c' /\ chr1 c' = str i) /\
    (forall i, 0 <= i < N ->
       (forall h w c, 0 <= h < H -> 0 <= w < W ->
          grid_get g0 h w = inr c -> chr1 c <> str i) ->
       py_getitem start i = inr (0, 0)).
Proof.
  intros Hg0.
  destruct (initial_positions_full_spec g0 H W N Hg0)
    as (g & start & Hrun & (Hg & Hlen & Hcells & Hpos) & Hdef).
  cbn [fst snd] in *. exists g, start.
  do 3 (split; [done|]). split; [|split].
  - intros h w c Hh Hw Hc. rewrite (Hcells h w c) by done.
    by rewrite decide_True by by apply elem_of_coords.
  - intros i h w c Hi Hh Hw Hc Hs.
    destruct (Hpos i h w c) as (h' & w' & c' & Hlk & Hrest);
      [done|by apply elem_of_coords|done..|].
    exists h', w', c'. split; [|done].
    by apply py_getitem_lookup; [lia|].
  - intros i Hi Hnone. apply py_getitem_lookup; [lia|].
    apply Hdef; [done|]. intros h w c _. apply Hnone.
Qed.

Lemma rect_two_by_three : rect 2 3 (convert_to_grid two_by_three).
Proof. split; [reflexivity|]. repeat constructor. Qed.

Lemma initial_positions_contract_witness :
  exists g start,
    initial_positions (convert_to_grid two_by_three) (2, 3) 1 = inr (g, start) /\
    rect 2 3 g /\
    len start = Z.max 0 1 /\
    (forall h w c, 0 <= h < 2 -> 0 <= w < 3 ->
       grid_get (convert_to_grid two_by_three) h w = inr c ->
       grid_get g h w = inr (clear_marker (bot_ids_of 1) c)) /\
    (forall i h w c, 0 <= i < 1 -> 0 <= h < 2 -> 0 <= w < 3 ->
       grid_get (convert_to_grid two_by_three) h w = inr c -> chr1 c = str i ->
       exists h' w' c',
         py_getitem start i = inr (h', w') /\
         0 <= h' < 2 /\ 0 <= w' < 3 /\
         grid_get (convert_to_grid two_by_three) h' w' = inr c' /\
         chr1 c' = str i) /\
    (forall i, 0 <= i < 1 ->
       (forall h w c, 0 <= h < 2 -> 0 <= w < 3 ->
          grid_get (convert_to_grid two_by_three) h w = inr c ->
          chr1 c <> str i) ->
       py_getitem start i = inr (0, 0)).
Proof.
  apply (initial_positions_contract (convert_to_grid two_by_three) 2 3 1).
  exact rect_two_by_three.
Defined.



(** ** initial_positions with a shape that exceeds the grid *)

Lemma for_each_app {S X} (body : S -> X -> result S) (l1 l2 : list X) (s : S) :
  for_each body (l1 ++ l2) s
    = (s' <~ for_each body l1 s ;; for_each body l2 s').
Proof.
  revert s. induction l1 as [|x l1 IH]; intros s; [done|].
  cbn [app]. py_simpl. destruct (body s x); [done|]. py_simpl. apply IH.
Qed.

Lemma py_getitem_out {A} (l : list A) (i : Z) :
  len l <= i -> py_getitem l i = inl IndexError.
Proof.
  intros Hi. pose proof (len_nonneg l). unfold py_getitem.
  destruct (decide (i < 0)); [lia|]. by destruct (decide (0 <= i < len l)); [lia|].
Qed.

Lemma grid_get_out {A} (H W : Z) (g : list (list A)) (h w : Z) :
  rect H W g -> 0 <= h -> 0 <= w -> H <= h \/ W <= w ->
  grid_get g h w = inl IndexError.
Proof.
  intros [Hlen Hrows] Hh Hw Hout. unfold grid_get.
  destruct (decide (H <= h)) as [Hge|Hlt].
  - by rewrite py_getitem_out by lia.
  - destruct (lookup_lt_is_Some_2 g (Z.to_nat h)) as [row Hrow];
      [unfold len in Hlen; lia|].
    rewrite (py_getitem_lookup g h row) by done. py_simpl.
    rewrite Forall_forall in Hrows.
    rewrite py_getitem_out; [done|].
    rewrite (Hrows row) by (by eapply list_elem_of_lookup_2). lia.
Qed.

Lemma initial_positions_prefix (g0 : list (list ascii)) (H W N : Z)
    (pre : list (Z * Z)) :
  rect H W g0 ->
  Forall (fun hw => 0 <= hw.1 < H /\ 0 <= hw.2 < W) pre ->
  exists st,
    for_each (initial_positions_body (bot_ids_of N)) pre
             (g0, replicate (Z.to_nat N) (0, 0)) = inr st /\
    rect H W st.1.
Proof.
  intros Hg0 Hpre.
  destruct (for_each_inv (initial_positions_body (bot_ids_of N))
              (initial_positions_inv g0 H W N) pre)
    with (rest := pre) (done := @nil (Z * Z))
         (s := (g0, replicate (Z.to_nat N) (0, 0)))
    as (st & Hrun & Hinv).
  - intros done [h w] rest st Hall Hinv.
    rewrite Forall_forall in Hpre.
    destruct (Hpre (h, w)) as [Hh Hw];
      [rewrite Hall; apply elem_of_app; right; left|].
    by apply initial_positions_step.
  - done.
  - split; [done|]. cbn [fst snd]. split; [|split].
    + unfold len. rewrite length_replicate. lia.
    + intros h w c _ _ Hc. rewrite Hc. by rewrite decide_False by set_solver.
    + intros i h w c _ Hin. by apply elem_of_nil in Hin.
  - exists st. split; [done|]. by destruct Hinv.
Qed.

Lemma seqZ_middle (k n : Z) :
  0 <= k < n -> seqZ 0 n = seqZ 0 k ++ k :: seqZ (k + 1) (n - k - 1).
Proof.
  intros Hk. replace n with (k + (n - k)) at 1 by lia.
  rewrite seqZ_app by lia. f_equal. rewrite seqZ_cons by lia.
  apply (f_equal2 cons); [lia|]. apply (f_equal2 seqZ); lia.
Qed.

Lemma coords_first_row (H' W' W : Z) :
  0 < H' -> 0 <= W < W' ->
  exists post,
    coords H' W' = ((fun w => (0, w)) <$> seqZ 0 W) ++ (0, W) :: post.
Proof.
  intros HH HW. unfold coords, range.
  rewrite (seqZ_cons 0 H') by lia. rewrite bind_cons.
  rewrite (seqZ_middle W W') by done.
  rewrite fmap_app, fmap_cons, <-app_assoc. cbn [app]. eauto.
Qed.

Lemma coords_first_rows (H H' W' : Z) :
  0 <= H < H' -> 0 < W' ->
  exists post, coords H' W' = coords H W' ++ (H, 0) :: post.
Proof.
  intros HH HW. unfold coords, range.
  rewrite (seqZ_middle H H') by done.
  rewrite bind_app, bind_cons. cbn beta.
  rewrite (seqZ_cons 0 W') by lia. rewrite fmap_cons.
  cbn [app]. eauto.
Qed.

(** X15: [initial_positions] called on a rectangular grid with a shape
    that has more rows or more columns than the grid raises [IndexError]
    (both numbers of the shape being positive). *)
Theorem initial_positions_shape_too_large (g0 : list (list ascii))
    (H W H' W' N : Z) :
  rect H W g0 ->
  0 < H' -> 0 < W' -> H < H' \/ W < W' ->
  initial_positions g0 (H', W') N = inl IndexError.
Proof.
  intros Hg0 HH' HW' Hlarge.
  pose proof (len_nonneg g0) as HH. rewrite (proj1 Hg0) in HH.
  assert (exists pre h w post,
            coords H' W' = pre ++ (h, w) :: post /\
            Forall (fun hw => 0 <= hw.1 < H /\ 0 <= hw.2 < W) pre /\
            0 <= h /\ 0 <= w /\ (H <= h \/ W <= w))
    as (pre & h & w & post & Hcoords & Hpre & Hh & Hw & Hout).
  { destruct (decide (W < W' /\ 0 < H /\ 0 <= W)) as [(HW1 & HH1 & HW0)|Hn].
    - destruct (coords_first_row H' W' W) as [post Hpost]; [lia..|].
      exists ((fun w => (0, w)) <$> seqZ 0 W), 0, W, post.
      split; [done|]. split; [|lia].
      apply Forall_fmap, Forall_seqZ. cbn. lia.
    - assert (H < H') as HH1.
      { destruct Hg0 as [Hlen Hrows]. destruct g0 as [|row g0].
        - unfold len in Hlen. cbn in Hlen. lia.
        - apply Forall_cons in Hrows as [Hrow _].
          pose proof (len_nonneg row). unfold len in Hlen. cbn in Hlen. lia. }
      destruct (coords_first_rows H H' W') as [post Hpost]; [lia..|].
      exists (coords H W'), H, 0, post.
      split; [done|]. split; [|lia].
      apply Forall_forall. intros [h w] [Hh Hw]%elem_of_coords. cbn.
      split; [done|].
      destruct Hg0 as [Hlen Hrows]. destruct g0 as [|row g0].
      + unfold len in Hlen. cbn in Hlen. lia.
      + apply Forall_cons in Hrows as [Hrow _].
        pose proof (len_nonneg row). unfold len in Hlen. cbn in Hlen. lia. }
  unfold initial_positions. cbn [fst snd]. rewrite Hcoords, for_each_app.
  destruct (initial_positions_prefix g0 H W N pre Hg0 Hpre)
    as ([g start] & -> & Hg).
  py_simpl. unfold initial_positions_body at 1.
  by rewrite (grid_get_out H W g h w).
Qed.

Lemma initial_positions_shape_too_large_witness :
  initial_positions (convert_to_grid two_by_three) (3, 3) 1 = inl IndexError.
Proof.
  apply (initial_positions_shape_too_large
           (convert_to_grid two_by_three) 2 3 3 3 1).
  - exact rect_two_by_three.
  - lia.
  - lia.
  - left. lia.
Defined.

(** ** The Universe constructor on every layout *)

Lemma Universe_init_one_row (layout_str : list ascii) (N : Z) :
  newline ∉ layout_str ->
  check_layout (strip_layout layout_str) N = inr tt ->
  Universe.__init__ layout_str N =
    inr (Universe.mk (strip layout_str) N 1 (-1) (1, -1) [strip layout_str]
           (replicate (Z.to_nat N) (0, 0)) (replicate (Z.to_nat N) (0, 0))
           [[]]).
Proof.
  intros Hnl Hck. unfold Universe.__init__. rewrite Hck. py_simpl.
  assert (strip_layout layout_str = strip layout_str) as ->.
  { unfold strip_layout. by rewrite split_no_sep. }
  assert (newline ∉ strip layout_str) as Hnl'
    by (by intros ?%strip_sublist).
  unfold layout_shape, convert_to_grid, find.
  rewrite (find_from_split newline (strip layout_str) 0 (strip layout_str) [])
    by (by apply split_no_sep).
  rewrite split_no_sep by done. cbn [fmap list_fmap]. rewrite strip_idemp.
  reflexivity.
Qed.

(** X16: on a layout that [check_layout] accepts and that has at least two
    rows the constructor returns a universe whose stored grid, food grid
    and checked layout have the same rows and columns; [initial_pos] has
    one entry per bot, and the entry of bot [i] is an in-bounds cell that
    held the marker of [i] and is free in the stored grid; every cell of
    the stored grid is the checked cell with markers and food replaced by
    the free character; [food_positions] is [True] exactly at the cells
    that held the food character; [width] is the number of rows and
    [height] the number of columns. *)
Theorem Universe_accepted_layout (layout_str : list ascii) (N : Z) :
  check_layout (strip_layout layout_str) N = inr tt ->
  2 <= len (split newline (strip_layout layout_str)) ->
  exists u W,
    Universe.__init__ layout_str N = inr u /\
    rect (len (split newline (strip_layout layout_str))) W
         (split newline (strip_layout layout_str)) /\
    Universe.width u = len (split newline (strip_layout layout_str)) /\
    Universe.height u = W /\
    Universe.shape u = (len (split newline (strip_layout layout_str)), W) /\
    rect (len (split newline (strip_layout layout_str))) W (Universe.layout u) /\
    rect (len (split newline (strip_layout layout_str))) W
         (Universe.food_positions u) /\
    len (Universe.initial_pos u) = Z.max 0 N /\
    (forall i, 0 <= i < N ->
       exists h w c,
         py_getitem (Universe.initial_pos u) i = inr (h, w) /\
         0 <= h < len (split newline (strip_layout layout_str)) /\
         0 <= w < W /\
         grid_get (split newline (strip_layout layout_str)) h w = inr c /\
         chr1 c = str i /\
         grid_get (Universe.layout u) h w = inr free) /\
    (forall h w c,
       0 <= h < len (split newline (strip_layout layout_str)) -> 0 <= w < W ->
       grid_get (split newline (strip_layout layout_str)) h w = inr c ->
       exists x,
         grid_get (Universe.layout u) h w = inr x /\
         x = clear_food (clear_marker (bot_ids_of N) c) /\
         (x = wall \/ x = free \/ x = harvester \/ x = destroyer) /\
         grid_get (Universe.food_positions u) h w
           = inr (bool_decide (c = food))).
Proof. exact (Universe_init_rows layout_str N). Qed.

Lemma two_by_three_accepted :
  check_layout (strip_layout two_by_three) 1 = inr tt /\
  2 <= len (split newline (strip_layout two_by_three)).
Proof. split; by vm_compute. Qed.

Lemma Universe_accepted_layout_witness :
  exists u W,
    Universe.__init__ two_by_three 1 = inr u /\
    rect (len (split newline (strip_layout two_by_three))) W
         (split newline (strip_layout two_by_three)) /\
    Universe.width u = len (split newline (strip_layout two_by_three)) /\
    Universe.height u = W /\
    Universe.shape u = (len (split newline (strip_layout two_by_three)), W) /\
    rect (len (split newline (strip_layout two_by_three))) W (Universe.layout u) /\
    rect (len (split newline (strip_layout two_by_three))) W
         (Universe.food_positions u) /\
    len (Universe.initial_pos u) = Z.max 0 1 /\
    (forall i, 0 <= i < 1 ->
       exists h w c,
         py_getitem (Universe.initial_pos u) i = inr (h, w) /\
         0 <= h < len (split newline (strip_layout two_by_three)) /\
         0 <= w < W /\
         grid_get (split newline (strip_layout two_by_three)) h w = inr c /\
         chr1 c = str i /\
         grid_get (Universe.layout u) h w = inr free) /\
    (forall h w c,
       0 <= h < len (split newline (strip_layout two_by_three)) -> 0 <= w < W ->
       grid_get (split newline (strip_layout two_by_three)) h w = inr c ->
       exists x,
         grid_get (Universe.layout u) h w = inr x /\
         x = clear_food (clear_marker (bot_ids_of 1) c) /\
         (x = wall \/ x = free \/ x = harvester \/ x = destroyer) /\
         grid_get (Universe.food_positions u) h w
           = inr (bool_decide (c = food))).
Proof.
  apply (Universe_accepted_layout two_by_three 1).
  - exact (proj1 two_by_three_accepted).
  - exact (proj2 two_by_three_accepted).
Defined.

(** X17: on an accepted layout without a newline the constructor returns
    with [width] 1 and [height] -1; it extracts nothing: the stored grid is
    the stripped text itself, every bot is at (0, 0) and [food_positions]
    is a single empty row. *)
Theorem Universe_one_row_layout (layout_str : list ascii) (N : Z) :
  newline ∉ layout_str ->
  check_layout (strip_layout layout_str) N = inr tt ->
  exists u,
    Universe.__init__ layout_str N = inr u /\
    Universe.width u = 1 /\ Universe.height u = -1 /\
    Universe.layout u = [strip layout_str] /\
    Universe.initial_pos u = replicate (Z.to_nat N) (0, 0) /\
    Universe.food_positions u = [[]].
Proof.
  intros Hnl Hck. eexists. split; [by apply Universe_init_one_row|]. done.
Qed.

Lemma two_bot_row_one_row :
  (newline ∉ two_bot_row) /\
  check_layout (strip_layout two_bot_row) 2 = inr tt.
Proof. split; [compute_done|by vm_compute]. Qed.

Lemma Universe_one_row_layout_witness :
  exists u,
    Universe.__init__ two_bot_row 2 = inr u /\
    Universe.width u = 1 /\ Universe.height u = -1 /\
    Universe.layout u = [strip two_bot_row] /\
    Universe.initial_pos u = replicate (Z.to_nat 2) (0, 0) /\
    Universe.food_positions u = [[]].
Proof.
  apply (Universe_one_row_layout two_bot_row 2).
  - exact (proj1 two_bot_row_one_row).
  - exact (proj2 two_bot_row_one_row).
Defined.

Lemma strip_layout_lines_count (layout_str : list ascii) :
  len (split newline (strip_layout layout_str))
    = len (split newline layout_str).
Proof. rewrite split_strip_layout. unfold len. by rewrite length_fmap. Qed.

(** X18: the constructor raises exactly when [check_layout] rejects the
    stripped layout, and then with the same exception: on an accepted
    layout the extraction loops never leave their grid, so no [IndexError]
    or [ValueError] escapes. *)
Theorem Universe_init_raises_iff (layout_str : list ascii) (N : Z) (e : exn) :
  Universe.__init__ layout_str N = inl e <->
  check_layout (strip_layout layout_str) N = inl e.
Proof.
  destruct (check_layout (strip_layout layout_str) N) as [e'|[]] eqn:Hck.
  - unfold Universe.__init__. rewrite Hck. py_simpl.
    split; by intros [= ->].
  - split; [|done]. intros Hinit. exfalso.
    destruct (decide (2 <= len (split newline (strip_layout layout_str))))
      as [Hrows|Hone].
    + destruct (Universe_init_rows layout_str N Hck Hrows) as (u & W & Hu & _).
      congruence.
    + rewrite strip_layout_lines_count in Hone.
      rewrite Universe_init_one_row in Hinit; [done| |done].
      intros Hin. apply Hone. unfold len. rewrite length_split.
      assert (newline ∈ filter (fun c => c = newline) layout_str) as Hf
        by by apply list_elem_of_filter.
      destruct (filter _ layout_str); [by apply elem_of_nil in Hf|cbn; lia].
Qed.

(** ** DumpingViewer: framing of the dumped messages *)

Lemma split_frames (sep : ascii) (frames : list (list ascii)) :
  Forall (fun f => sep ∉ f) frames ->
  split sep (mjoin ((fun f => f ++ [sep]) <$> frames)) = frames ++ [[]].
Proof.
  induction 1 as [|f frames Hf _ IH]; [done|].
  rewrite fmap_cons.
  change (split sep ((f ++ [sep])
            ++ mjoin ((fun f => f ++ [sep]) <$> frames))
          = (f :: frames) ++ [[]]).
  rewrite <-app_assoc. cbn [app].
  rewrite split_app_sep by done. by rewrite IH.
Qed.

Lemma DumpingViewer_send_all {Message} (json_dumps : Message -> list ascii)
    (ms : list Message) (v : DumpingViewer.t) :
  DumpingViewer.written (foldl (DumpingViewer._send json_dumps) v ms)
    = DumpingViewer.written v
        ++ mjoin ((fun f => f ++ ["004"%char]) <$> (json_dumps <$> ms)).
Proof.
  revert v. induction ms as [|m ms IH]; intros v.
  - cbn. by rewrite app_nil_r.
  - cbn [foldl]. rewrite IH. unfold DumpingViewer.written at 1 2.
    cbn [DumpingViewer._send DumpingViewer.stream].
    rewrite !join_app. cbn [mjoin list_join]. rewrite !app_nil_r.
    rewrite fmap_cons. cbn [fmap list_fmap mjoin list_join].
    by rewrite <-!app_assoc.
Qed.

(** X19: [DumpingViewer._send] frames its messages: when the dumped form of
    a message never contains the character 0x04 (JSON escapes control
    characters), the text written to a fresh stream by a sequence of sends
    splits at 0x04 into exactly the dumped messages, in the order sent,
    followed by an empty rest. *)
Theorem DumpingViewer_frames {Message} (json_dumps : Message -> list ascii)
    (ms : list Message) :
  (forall m, "004"%char ∉ json_dumps m) ->
  split "004"
    (DumpingViewer.written
       (foldl (DumpingViewer._send json_dumps) (DumpingViewer.__init__ []) ms))
    = (json_dumps <$> ms) ++ [[]].
Proof.
  intros Hdumps. rewrite DumpingViewer_send_all. cbn [app].
  apply split_frames, Forall_fmap, Forall_forall. intros m _. apply Hdumps.
Qed.

Lemma json_dumps_bool_no_eot (b : bool) : "004"%char ∉ json_dumps_bool b.
Proof. destruct b; compute_done. Qed.

Lemma DumpingViewer_frames_witness :
  split "004"
    (DumpingViewer.written
       (foldl (DumpingViewer._send json_dumps_bool) (DumpingViewer.__init__ [])
              [true; false]))
    = (json_dumps_bool <$> [true; false]) ++ [[]].
Proof.
  apply (DumpingViewer_frames json_dumps_bool [true; false]).
  exact json_dumps_bool_no_eot.
Defined.
